(** * Flask Journal API: a shallow embedding of the model layer and the routes

    The development follows the layout of the Python package [project]:

    - [datetime]            the part of Python's [datetime] the code uses;
    - [Entry], [User]       the two classes of [project/models.py];
    - [demo]                the in-memory demonstration API of
                            [project/demo/routes.py];
    - [World], [database]   the application state and the SQLAlchemy unit of
                            work as the routes drive it;
    - [users_api], [admin]  the routes of [project/users_api/routes.py] and
                            [project/admin/routes.py].

    Python functions that read the clock receive every reading of
    [datetime.utcnow()] as an argument, in the order the calls are made.
    Handlers run in a state-and-exception monad: a Python exception leaves
    the mutations made before it in place, exactly as the interpreter does. *)

From Stdlib Require Import ZArith String Ascii List Lia.
From stdpp Require Import base decidable option list strings gmap sorting.

Local Open Scope Z_scope.

(** ** Exceptions and the handler monad *)

(** The exceptions the modelled code raises or catches.  [abort(code)] of
    Flask raises an [HTTPException] carrying the status code. *)
Inductive exn : Type :=
| HTTPException (code : Z)
| IntegrityError
| BadSignature
| SignatureExpired
| AttributeError
| TypeError
| IndexError.

#[global] Instance exn_eq_dec : EqDecision exn.
Proof. solve_decision. Defined.

(** [isinstance_exn e cls]: the exception [e] is caught by [except cls].
    In itsdangerous, [SignatureExpired] derives from [BadTimeSignature],
    itself derived from [BadSignature]. *)
Definition isinstance_exn (e cls : exn) : bool :=
  match e, cls with
  | SignatureExpired, BadSignature => true
  | _, _ => bool_decide (e = cls)
  end.

Inductive outcome (A : Type) : Type :=
| Return (a : A)
| Raise (e : exn).
Arguments Return {A} a.
Arguments Raise {A} e.

(** A computation over a mutable state [S]. *)
Definition M (S A : Type) : Type := S -> outcome A * S.

#[global] Instance M_ret {S} : MRet (M S) :=
  fun A a s => (Return a, s).

#[global] Instance M_bind {S} : MBind (M S) :=
  fun A B f m s =>
    match m s with
    | (Return a, s') => f a s'
    | (Raise e, s') => (Raise e, s')
    end.

Definition raise {S A} (e : exn) : M S A := fun s => (Raise e, s).
Definition get_state {S} : M S S := fun s => (Return s, s).
Definition put_state {S} (s : S) : M S unit := fun _ => (Return tt, s).
Definition modify_state {S} (f : S -> S) : M S unit := fun s => (Return tt, f s).

(** [try: body  except cls: handler] followed by the rest [k] of the
    function.  The handler ends the function (it returns or raises), so its
    result is the function's; an exception that is not an instance of [cls]
    propagates. *)
Definition try_except {S A B} (body : M S A) (cls : exn) (handler : M S B)
    (k : A -> M S B) : M S B :=
  fun s =>
    match body s with
    | (Return a, s') => k a s'
    | (Raise e, s') =>
        if isinstance_exn e cls then handler s' else (Raise e, s')
    end.

(** [flask.abort(code)] *)
Definition abort {S A} (code : Z) : M S A := raise (HTTPException code).

(** Lifting of a pure computation that may raise. *)
Definition lift_outcome {S A} (o : outcome A) : M S A := fun s => (o, s).

(** ** Python values and sequences *)

Module datetime.

(** A naive [datetime] is represented by the number of microseconds since
    0001-01-01T00:00:00, the resolution and the origin of Python's own
    ordinal arithmetic.  Comparison of datetimes is comparison of these
    numbers, and adding a [timedelta] is addition (Python raises
    [OverflowError] past year 9999, which no reading of the clock plus one
    hour reaches). *)
Definition t : Type := Z.

Definition timedelta (minutes : Z) : Z := minutes * 60 * 1000000.

Definition is_leap (y : Z) : bool :=
  (y mod 4 =? 0) && (negb (y mod 100 =? 0) || (y mod 400 =? 0)).

Definition days_before_year (y : Z) : Z :=
  let y1 := y - 1 in y1 * 365 + y1 / 4 - y1 / 100 + y1 / 400.

Definition days_in_month (y m : Z) : Z :=
  if m =? 2 then (if is_leap y then 29 else 28)
  else if (m =? 4) || (m =? 6) || (m =? 9) || (m =? 11) then 30
  else 31.

Fixpoint days_before_month_aux (y : Z) (m : nat) : Z :=
  match m with
  | O => 0
  | S m' => days_before_month_aux y m' + days_in_month y (Z.of_nat m)
  end.

Definition days_before_month (y m : Z) : Z :=
  days_before_month_aux y (Z.to_nat (m - 1)).

(** [date(y, m, d).toordinal()]: 0001-01-01 is day 1. *)
Definition ymd2ord (y m d : Z) : Z :=
  days_before_year y + days_before_month y m + d.

Definition make (y m d hh mm ss us : Z) : t :=
  ((((ymd2ord y m d - 1) * 24 + hh) * 60 + mm) * 60 + ss) * 1000000 + us.

Definition digit (a : ascii) : option Z :=
  let n := Z.of_N (N_of_ascii a) in
  if (48 <=? n) && (n <=? 57) then Some (n - 48) else None.

(** Reads exactly [n] decimal digits. *)
Fixpoint digits (n : nat) (acc : Z) (s : string) : option (Z * string) :=
  match n with
  | O => Some (acc, s)
  | S n' =>
      match s with
      | String a s' =>
          match digit a with
          | Some d => digits n' (acc * 10 + d) s'
          | None => None
          end
      | EmptyString => None
      end
  end.

Definition expect (c : ascii) (s : string) : option string :=
  match s with
  | String a s' => if Ascii.eqb a c then Some s' else None
  | EmptyString => None
  end.

(** [datetime.fromisoformat] on the form the code feeds it,
    [YYYY-MM-DDTHH:MM:SS.ffffff]; any other text is refused. *)
Definition fromisoformat (s : string) : option t :=
  '(y, s) ← digits 4 0 s;
  s ← expect "-" s;
  '(m, s) ← digits 2 0 s;
  s ← expect "-" s;
  '(d, s) ← digits 2 0 s;
  s ← expect "T" s;
  '(hh, s) ← digits 2 0 s;
  s ← expect ":" s;
  '(mm, s) ← digits 2 0 s;
  s ← expect ":" s;
  '(ss, s) ← digits 2 0 s;
  s ← expect "." s;
  '(us, s) ← digits 6 0 s;
  if bool_decide (s = EmptyString) &&
     (1 <=? y) && (1 <=? m) && (m <=? 12) && (1 <=? d) && (d <=? days_in_month y m) &&
     (hh <=? 23) && (mm <=? 59) && (ss <=? 59)
  then Some (make y m d hh mm ss us)
  else None.

End datetime.

(** The values stored in the dictionaries of the demonstration data. *)
Inductive pyval : Type :=
| VInt (z : Z)
| VStr (s : string)
| VDatetime (d : datetime.t)
| VNone.

#[global] Instance pyval_eq_dec : EqDecision pyval.
Proof. solve_decision. Defined.

(** A dictionary with string keys. *)
Abbreviation dict := (gmap string pyval).

(** Position denoted by a Python index in a sequence of length [n]:
    negative indices count from the end; [None] is [IndexError]. *)
Definition py_index (n : nat) (i : Z) : option nat :=
  let j := if i <? 0 then i + Z.of_nat n else i in
  if (0 <=? j) && (j <? Z.of_nat n) then Some (Z.to_nat j) else None.

(** [l[i]] *)
Definition py_getitem {A} (l : list A) (i : Z) : outcome A :=
  match py_index (length l) i with
  | Some k =>
      match l !! k with
      | Some x => Return x
      | None => Raise IndexError
      end
  | None => Raise IndexError
  end.

(** [len(l)] *)
Definition len {A} (l : list A) : Z := Z.of_nat (length l).

(** ** project/schemas.py: the request bodies the routes receive

    [@body(schema)] hands the handler the validated fields; a body with a
    required field missing never reaches it. *)

(** [NewEntrySchema] *)
Record NewEntrySchema : Type := { kw_entry : string }.

(** [NewUserSchema] *)
Record NewUserSchema : Type := { kw_email : string; kw_password_plaintext : string }.

(** [ChangePasswordSchema] *)
Record ChangePasswordSchema : Type :=
  { kw_old_password_plaintext : string; kw_new_password_plaintext : string }.


(** ** project/demo/routes.py *)

Module demo.

Definition iso (s : string) : pyval :=
  match datetime.fromisoformat s with
  | Some d => VDatetime d
  | None => VNone
  end.

(** The demonstration database: a module-level list of dictionaries, shared
    by every request.  It is the state of the handlers below. *)
Definition demo_entries : list dict :=
  [ list_to_map
      [("id", VInt 1);
       ("entry", VStr "I went for a great walk at the park today.");
       ("user_id", VInt 0);
       ("created_on", iso "2022-07-01T04:29:50.307527");
       ("last_edited_on", iso "2022-07-01T04:29:50.307527")];
    list_to_map
      [("id", VInt 2);
       ("entry", VStr "I tried a new pasta recipe for dinner tonight.");
       ("user_id", VInt 0);
       ("created_on", iso "2022-07-02T06:29:50.307527");
       ("last_edited_on", iso "2022-07-02T06:29:50.307527")];
    list_to_map
      [("id", VInt 3);
       ("entry", VStr "There was a great new movie on Netflix that I watched tonight.");
       ("user_id", VInt 0);
       ("created_on", iso "2022-07-02T07:29:50.307527");
       ("last_edited_on", iso "2022-07-02T07:29:50.307527")];
    list_to_map
      [("id", VInt 4);
       ("entry", VStr "There was so much fresh fruit at the grocery store, so I made a great fruit salad with dinner.");
       ("user_id", VInt 0);
       ("created_on", iso "2022-07-02T14:29:50.307527");
       ("last_edited_on", iso "2022-07-02T14:29:50.307527")];
    list_to_map
      [("id", VInt 5);
       ("entry", VStr "I got an email from an old friend today that was a really nice surprise.");
       ("user_id", VInt 0);
       ("created_on", iso "2022-07-03T17:29:50.307527");
       ("last_edited_on", iso "2022-07-03T17:29:50.307527")] ].

(** Handlers of the blueprint: computations over the shared list. *)
Abbreviation handler := (M (list dict)).

(** [GET /journal/] *)
Definition demo_journal : handler (list dict) :=
  get_state.

(** [POST /journal/], answered with status 201.  [utcnow1] and [utcnow2]
    are the two clock readings, in the order of the dictionary display. *)
Definition demo_add_journal_entry (utcnow1 utcnow2 : datetime.t)
    (kwargs : NewEntrySchema) : handler (dict * Z) :=
  demo_entries ← get_state;
  let new_message : dict :=
    list_to_map
      [("id", VInt (len demo_entries + 1));
       ("entry", VStr (kw_entry kwargs));
       ("user_id", VInt 0);
       ("created_on", VDatetime utcnow1);
       ("last_edited_on", VDatetime utcnow2)] in
  mret (new_message, 201).

(** [GET /journal/<int:index>] *)
Definition demo_get_journal_entry (index : Z) : handler dict :=
  demo_entries ← get_state;
  _ ← (if (index =? 0) || (len demo_entries <? index) then abort 404 else mret tt);
  lift_outcome (py_getitem demo_entries (index - 1)).

(** [PUT /journal/<int:index>].  [entry] is a reference to the dictionary
    held by the list, so the assignment to its key is visible through
    [demo_entries]: the list slot is replaced by the updated dictionary. *)
Definition demo_update_journal_entry (kwargs : NewEntrySchema) (index : Z)
    : handler dict :=
  demo_entries ← get_state;
  _ ← (if (index =? 0) || (len demo_entries <? index) then abort 404 else mret tt);
  entry ← lift_outcome (py_getitem demo_entries (index - 1));
  let entry' : dict := <["entry" := VStr (kw_entry kwargs)]> entry in
  _ ← modify_state (fun l =>
         match py_index (length l) (index - 1) with
         | Some k => <[k := entry']> l
         | None => l
         end);
  mret entry'.

(** [DELETE /journal/<int:index>]: an empty body with status 204 *)
Definition demo_delete_journal_entry (index : Z) : handler (string * Z) :=
  demo_entries ← get_state;
  _ ← (if (index =? 0) || (len demo_entries <? index) then abort 404 else mret tt);
  mret (EmptyString, 204).

End demo.

(** ** Collaborators outside the package

    [werkzeug.security], [itsdangerous.URLSafeTimedSerializer] and the
    application configuration are used through their interfaces only.
    Salted hashing receives its salt, and the serializer the clock reading
    it stamps or checks against, as arguments. *)
Class Collaborators : Type := {
  SECRET_KEY : string;
  (** [generate_password_hash(password)], with the random salt it draws *)
  generate_password_hash : string -> string -> string;
  (** [check_password_hash(pwhash, password)] *)
  check_password_hash : string -> string -> bool;
  (** [URLSafeTimedSerializer(secret_key).dumps(obj, salt=salt)] *)
  serializer_dumps : string -> string -> string -> datetime.t -> string;
  (** [URLSafeTimedSerializer(secret_key).loads(token, salt=salt, max_age=max_age)]:
      the payload, or [BadSignature] / [SignatureExpired] raised *)
  serializer_loads : string -> string -> string -> Z -> datetime.t -> outcome string
}.

(** ** project/models.py *)

Module Entry.

(** A row of table [entries].  [id] is [None] until the row is inserted;
    [user_id] is a nullable foreign key to [users.id]. *)
Record t : Type := {
  id : option Z;
  entry : string;
  user_id : option Z;
  created_on : datetime.t;
  last_edited_on : datetime.t
}.

#[global] Instance eq_dec : EqDecision t.
Proof. solve_decision. Defined.

(** [Entry.__init__(self, entry, user_id)]; two clock readings. *)
Definition __init__ (utcnow1 utcnow2 : datetime.t) (entry : string) (user_id : Z) : t :=
  {| id := None;
     entry := entry;
     user_id := Some user_id;
     created_on := utcnow1;
     last_edited_on := utcnow2 |}.

(** [Entry.update(self, entry)] *)
Definition update (utcnow : datetime.t) (self : t) (entry : string) : t :=
  {| id := id self;
     entry := entry;
     user_id := user_id self;
     created_on := created_on self;
     last_edited_on := utcnow |}.

End Entry.

Module User.

(** A row of table [users]. *)
Record t : Type := {
  id : option Z;
  email : string;
  password_hashed : string;
  auth_token : option string;
  auth_token_expiration : option datetime.t;
  registered_on : datetime.t;
  email_confirmation_sent_on : datetime.t;
  email_confirmed : bool;
  email_confirmed_on : option datetime.t;
  user_type : string
}.

#[global] Instance eq_dec : EqDecision t.
Proof. solve_decision. Defined.

Definition set_auth_token (tok : option string) (exp : option datetime.t) (self : t) : t :=
  {| id := id self; email := email self; password_hashed := password_hashed self;
     auth_token := tok; auth_token_expiration := exp;
     registered_on := registered_on self;
     email_confirmation_sent_on := email_confirmation_sent_on self;
     email_confirmed := email_confirmed self;
     email_confirmed_on := email_confirmed_on self;
     user_type := user_type self |}.

Definition set_email_confirmed (b : bool) (on : option datetime.t) (self : t) : t :=
  {| id := id self; email := email self; password_hashed := password_hashed self;
     auth_token := auth_token self; auth_token_expiration := auth_token_expiration self;
     registered_on := registered_on self;
     email_confirmation_sent_on := email_confirmation_sent_on self;
     email_confirmed := b;
     email_confirmed_on := on;
     user_type := user_type self |}.

Definition set_id (i : option Z) (self : t) : t :=
  {| id := i; email := email self; password_hashed := password_hashed self;
     auth_token := auth_token self; auth_token_expiration := auth_token_expiration self;
     registered_on := registered_on self;
     email_confirmation_sent_on := email_confirmation_sent_on self;
     email_confirmed := email_confirmed self;
     email_confirmed_on := email_confirmed_on self;
     user_type := user_type self |}.

Section methods.
Context `{Collaborators}.

(** [User._generate_password_hash] *)
Definition _generate_password_hash (salt password_plaintext : string) : string :=
  generate_password_hash password_plaintext salt.

(** [User.__init__(self, email, password_plaintext, user_type='User')] *)
Definition __init__ (utcnow1 utcnow2 : datetime.t) (salt : string)
    (email password_plaintext user_type : string) : t :=
  {| id := None;
     email := email;
     password_hashed := _generate_password_hash salt password_plaintext;
     auth_token := None;
     auth_token_expiration := None;
     registered_on := utcnow1;
     email_confirmation_sent_on := utcnow2;
     email_confirmed := false;
     email_confirmed_on := None;
     user_type := user_type |}.

(** [User.is_password_correct] *)
Definition is_password_correct (self : t) (password_plaintext : string) : bool :=
  check_password_hash (password_hashed self) password_plaintext.

(** [User.set_password] *)
Definition set_password (salt : string) (self : t) (password_plaintext : string) : t :=
  {| id := id self; email := email self;
     password_hashed := _generate_password_hash salt password_plaintext;
     auth_token := auth_token self; auth_token_expiration := auth_token_expiration self;
     registered_on := registered_on self;
     email_confirmation_sent_on := email_confirmation_sent_on self;
     email_confirmed := email_confirmed self;
     email_confirmed_on := email_confirmed_on self;
     user_type := user_type self |}.

End methods.

(** [User.generate_auth_token]: [token_urlsafe] is the string drawn by
    [secrets.token_urlsafe()].  Returns the mutated object and the token. *)
Definition generate_auth_token (token_urlsafe : string) (utcnow : datetime.t)
    (self : t) : t * string :=
  let self := set_auth_token (Some token_urlsafe) (auth_token_expiration self) self in
  let self := set_auth_token (auth_token self)
                (Some (utcnow + datetime.timedelta 60)) self in
  (self, token_urlsafe).

(** [User.verify_auth_token], a static method: [users] is the table the
    query runs on, in row order.  A row whose token is set while its
    expiration is NULL makes the comparison raise [TypeError]. *)
Definition verify_auth_token (users : list t) (utcnow : datetime.t)
    (auth_token' : string) : outcome (option t) :=
  let user := head (filter (fun u => auth_token u = Some auth_token') users) in
  match user with
  | Some user =>
      match auth_token_expiration user with
      | Some expiration =>
          if utcnow <? expiration then Return (Some user) else Return None
      | None => Raise TypeError
      end
  | None => Return None
  end.

(** [User.revoke_auth_token] *)
Definition revoke_auth_token (utcnow : datetime.t) (self : t) : t :=
  set_auth_token (auth_token self) (Some utcnow) self.

(** [User.confirm_email_address] *)
Definition confirm_email_address (utcnow : datetime.t) (self : t) : t :=
  set_email_confirmed true (Some utcnow) self.

(** [User.revoke_email_address_confirmation] *)
Definition revoke_email_address_confirmation (self : t) : t :=
  set_email_confirmed false None self.

Definition set_email_confirmation_sent_on (on : datetime.t) (self : t) : t :=
  {| id := id self; email := email self; password_hashed := password_hashed self;
     auth_token := auth_token self; auth_token_expiration := auth_token_expiration self;
     registered_on := registered_on self;
     email_confirmation_sent_on := on;
     email_confirmed := email_confirmed self;
     email_confirmed_on := email_confirmed_on self;
     user_type := user_type self |}.

(** [User.confirmation_email_link_sent] *)
Definition confirmation_email_link_sent (utcnow : datetime.t) (self : t) : t :=
  set_email_confirmation_sent_on utcnow self.

(** [User.is_admin] *)
Definition is_admin (self : t) : bool :=
  bool_decide (user_type self = "Admin").

(** [User.get_roles] *)
Definition get_roles (self : t) : list string :=
  if bool_decide (user_type self = "Admin") then ["User"; "Admin"] else ["User"].

End User.

(** ** The application state: SQLAlchemy tables and session, Flask services *)

(** A URL built by [url_for(endpoint, token=...)] *)
Record url : Type := { endpoint : string; url_token : option string }.

Definition url_for (endpoint : string) : url :=
  {| endpoint := endpoint; url_token := None |}.

Definition url_for_token (endpoint token : string) : url :=
  {| endpoint := endpoint; url_token := Some token |}.

(** [PasswordForm()] (from [forms.py]), bound to the current request: the
    result of [validate_on_submit()] and the submitted [password.data]. *)
Record PasswordForm : Type := { validate_on_submit : bool; password_data : string }.

(** A value of a template context *)
Inductive ctxval : Type :=
| CUrl (u : url)
| CForm (f : PasswordForm).

(** [render_template] with its context, kept symbolic *)
Record page : Type := { template : string; context : list (string * ctxval) }.

Definition render_template (name : string) (context : list (string * ctxval)) : page :=
  {| template := name; context := context |}.

(** What an HTML view returns *)
Inductive response : Type :=
| Redirect (target : url)
| Page (p : page).

(** [flask_mail.Message] *)
Record Message : Type := { subject : string; html : page; recipients : list string }.

(** An operation recorded by the session and not yet flushed *)
Inductive pending : Type :=
| InsertUser (u : User.t)
| UpdateUser (u : User.t)
| DeleteUser (u : User.t)
| DeleteEntry (e : Entry.t).

Record World : Type := {
  users : list User.t;              (* table [users], in row order *)
  entries : list Entry.t;           (* table [entries], in row order *)
  session : list pending;           (* [database.session] *)
  flashes : list (string * string); (* messages given to [flash], with category *)
  log : list string;                (* [current_app.logger.info] *)
  outbox : list Message             (* messages handed to a sender thread *)
}.

Definition with_tables (us : list User.t) (es : list Entry.t) (w : World) : World :=
  {| users := us; entries := es; session := session w;
     flashes := flashes w; log := log w; outbox := outbox w |}.

Definition with_session (p : list pending) (w : World) : World :=
  {| users := users w; entries := entries w; session := p;
     flashes := flashes w; log := log w; outbox := outbox w |}.

Definition with_flashes (f : list (string * string)) (w : World) : World :=
  {| users := users w; entries := entries w; session := session w;
     flashes := f; log := log w; outbox := outbox w |}.

Definition with_log (l : list string) (w : World) : World :=
  {| users := users w; entries := entries w; session := session w;
     flashes := flashes w; log := l; outbox := outbox w |}.

Definition with_outbox (o : list Message) (w : World) : World :=
  {| users := users w; entries := entries w; session := session w;
     flashes := flashes w; log := log w; outbox := o |}.

Abbreviation view := (M World).

Module database.

(** Next value of an INTEGER PRIMARY KEY: one more than the largest in use. *)
Definition next_id (ids : list (option Z)) : Z :=
  1 + foldr (fun i acc => Z.max (default 0 i) acc) 0 ids.

(** The row update a flush performs for a persistent user [u]: the row that
    carries its primary key takes its attributes. *)
Definition update_row (u : User.t) (r : User.t) : User.t :=
  if bool_decide (User.id r = User.id u) then u else r.

(** Effect of one flushed operation on the two tables.  The UNIQUE
    constraint on [users.email] refuses a second row with an email already
    present.  Deleting a user first sets to NULL the foreign key of the
    entries that still reference it (the [entries] relationship carries no
    delete cascade). *)
Definition flush_op (op : pending) (tb : list User.t * list Entry.t)
    : outcome (list User.t * list Entry.t) :=
  let '(us, es) := tb in
  match op with
  | InsertUser u =>
      if bool_decide (User.email u ∈ User.email <$> us) then Raise IntegrityError
      else Return (us ++ [User.set_id (Some (next_id (User.id <$> us))) u], es)
  | UpdateUser u =>
      Return (update_row u <$> us, es)
  | DeleteUser u =>
      Return (filter (fun r => User.id r ≠ User.id u) us,
              (fun e => if bool_decide (Entry.user_id e = User.id u)
                        then {| Entry.id := Entry.id e; Entry.entry := Entry.entry e;
                                Entry.user_id := None;
                                Entry.created_on := Entry.created_on e;
                                Entry.last_edited_on := Entry.last_edited_on e |}
                        else e) <$> es)
  | DeleteEntry e =>
      Return (us, filter (fun r => Entry.id r ≠ Entry.id e) es)
  end.

Fixpoint flush (ops : list pending) (tb : list User.t * list Entry.t)
    : outcome (list User.t * list Entry.t) :=
  match ops with
  | [] => Return tb
  | op :: ops' =>
      match flush_op op tb with
      | Return tb' => flush ops' tb'
      | Raise e => Raise e
      end
  end.

(** [database.session.add(user)]: a new object is inserted at the next
    flush, a persistent one has its row updated. *)
Definition session_add (u : User.t) : view unit :=
  modify_state (fun w =>
    with_session (session w ++ [if User.id u is None then InsertUser u else UpdateUser u]) w).

(** [database.session.delete(user)] *)
Definition session_delete_user (u : User.t) : view unit :=
  modify_state (fun w => with_session (session w ++ [DeleteUser u]) w).

(** [database.session.delete(entry)] *)
Definition session_delete (e : Entry.t) : view unit :=
  modify_state (fun w => with_session (session w ++ [DeleteEntry e]) w).

(** [database.session.commit()]: the pending operations are flushed in one
    transaction.  When the database refuses one of them the tables keep
    their state and the exception propagates.  The session then waits for
    [rollback()]: the operations left in it here stand for that state, and
    [session_rollback] empties it, SQLAlchemy having discarded the refused
    objects by then. *)
Definition session_commit : view unit :=
  fun w =>
    match flush (session w) (users w, entries w) with
    | Return (us, es) => (Return tt, with_session [] (with_tables us es w))
    | Raise e => (Raise e, w)
    end.

(** [database.session.rollback()] *)
Definition session_rollback : view unit :=
  modify_state (with_session []).

(** [User.query.filter_by(email=email).first()] *)
Definition User_query_filter_by_email (email : string) : view (option User.t) :=
  w ← get_state;
  mret (head (filter (fun u => User.email u = email) (users w))).

(** [User.query.filter_by(id=index).first_or_404()]; [index] is the value
    of [<int:index>] in the URL, taken within the integers SQLite stores
    (from 0 to 2^63 - 1). *)
Definition User_query_filter_by_id_first_or_404 (index : Z) : view User.t :=
  w ← get_state;
  match head (filter (fun u => User.id u = Some index) (users w)) with
  | Some u => mret u
  | None => abort 404
  end.

(** [Entry.query.filter_by(user_id=user_id).all()] *)
Definition Entry_query_filter_by_user_id (user_id : option Z) : view (list Entry.t) :=
  w ← get_state;
  mret (filter (fun e => Entry.user_id e = user_id) (entries w)).

End database.

(** [flash(message, category)] *)
Definition flash (message category : string) : view unit :=
  modify_state (fun w => with_flashes (flashes w ++ [(message, category)]) w).

(** [current_app.logger.info(message)] *)
Definition logger_info (message : string) : view unit :=
  modify_state (fun w => with_log (log w ++ [message]) w).

(** [Thread(target=send_email, args=[msg]).start()]: the message is handed
    to a thread that sends it; the request does not wait for it. *)
Definition start_email_thread (msg : Message) : view unit :=
  modify_state (fun w => with_outbox (outbox w ++ [msg]) w).

(** Attribute access on the result of [.first()]: on [None] it raises
    [AttributeError]. *)
Definition getattr_of {A} (o : option A) : view A :=
  match o with
  | Some a => mret a
  | None => raise AttributeError
  end.

(** ** project/users_api/routes.py *)

Module users_api.
Section routes.
Context `{Collaborators}.

(** [generate_confirmation_email(user_email)]; [utcnow] is the time the
    serializer stamps into the token. *)
Definition generate_confirmation_email (utcnow : datetime.t) (user_email : string) : Message :=
  let confirm_url :=
    url_for_token "users_api.confirm_email"
      (serializer_dumps SECRET_KEY user_email "email-confirmation-salt" utcnow) in
  {| subject := "Flask Journal API - Confirm Your Email Address";
     html := render_template "users_api/email_confirmation.html"
               [("confirm_url", CUrl confirm_url)];
     recipients := [user_email] |}.


(** [POST /users/], answered with status 201.  [utcnow1], [utcnow2] and
    [salt] feed the constructor of [User], [utcnow3] the confirmation token.  After
    the commit the object [new_user] denotes its inserted row, found here by
    its email, a unique column. *)
Definition register (utcnow1 utcnow2 : datetime.t) (salt : string) (utcnow3 : datetime.t)
    (kwargs : NewUserSchema) : view (User.t * Z) :=
  try_except
    (let new_user :=
       User.__init__ utcnow1 utcnow2 salt
         (kw_email kwargs) (kw_password_plaintext kwargs) "User" in
     _ ← database.session_add new_user;
     _ ← database.session_commit;
     row ← database.User_query_filter_by_email (User.email new_user);
     mret (default new_user row))
    IntegrityError
    (_ ← database.session_rollback;
     abort 400)
    (fun new_user =>
       let msg := generate_confirmation_email utcnow3 (User.email new_user) in
       _ ← start_email_thread msg;
       mret (new_user, 201)).

(** [POST /users/get-auth-token]; [current_user] is the user authenticated
    by [basic_auth].  Returns the token of [dict(token=token)]. *)
Definition get_auth_token (token_urlsafe : string) (utcnow : datetime.t)
    (current_user : User.t) : view string :=
  let '(user, token) := User.generate_auth_token token_urlsafe utcnow current_user in
  _ ← database.session_add user;
  _ ← database.session_commit;
  mret token.

(** [PUT /users/account]; [current_user] is the user authenticated by
    [token_auth]. *)
Definition change_password (salt : string) (utcnow : datetime.t)
    (current_user : User.t) (data : ChangePasswordSchema) : view User.t :=
  let user := current_user in
  _ ← (if negb (User.is_password_correct user (kw_old_password_plaintext data))
       then abort 400 else mret tt);
  let user := User.set_password salt user (kw_new_password_plaintext data) in
  let user := User.revoke_auth_token utcnow user in
  _ ← database.session_add user;
  _ ← database.session_commit;
  mret user.

(** [GET /users/confirm/<token>].  [utcnow] is the time at which the
    serializer checks the age of the token, [now] the reading of
    [datetime.now()]. *)
Definition confirm_email (utcnow now : datetime.t) (remote_addr : string)
    (token : string) : view page :=
  try_except
    (lift_outcome (serializer_loads SECRET_KEY token "email-confirmation-salt" 3600 utcnow))
    BadSignature
    (_ ← logger_info ("Invalid or expired confirmation link received from IP address: "
                       +:+ remote_addr);
     mret (render_template "users_api/email_confirmation_invalid.html" []))
    (fun email =>
       user ← database.User_query_filter_by_email email;
       user ← getattr_of user;
       if User.email_confirmed user then
         _ ← logger_info ("Confirmation link received for a confirmed user: "
                           +:+ User.email user);
         mret (render_template "users_api/email_confirmation_duplicate.html" [])
       else
         let user := User.set_email_confirmed true (Some now) user in
         _ ← database.session_add user;
         _ ← database.session_commit;
         _ ← logger_info ("Email address confirmed for: " +:+ User.email user);
         mret (render_template "users_api/email_confirmed.html" [])).

(** [GET|POST /users/password_reset_via_token/<token>]; [form] is the
    [PasswordForm] of the request. *)
Definition process_password_reset_token (utcnow : datetime.t) (salt : string)
    (form : PasswordForm) (token : string) : view page :=
  try_except
    (lift_outcome (serializer_loads SECRET_KEY token "password-reset-salt" 3600 utcnow))
    BadSignature
    (_ ← logger_info "Processed password reset link that is invalid or has expired.";
     mret (render_template "users_api/password_reset_invalid.html" []))
    (fun email =>
       if validate_on_submit form then
         user ← database.User_query_filter_by_email email;
         match user with
         | None => mret (render_template "users_api/password_reset_invalid.html" [])
         | Some user =>
             let user := User.set_password salt user (password_data form) in
             _ ← database.session_add user;
             _ ← database.session_commit;
             mret (render_template "users_api/password_updated.html" [])
         end
       else
         mret (render_template "users_api/reset_password_with_token.html"
                 [("form", CForm form)])).

(** [GET /users/account]; [current_user] is the user authenticated by
    [token_auth]. *)
Definition user_profile (current_user : User.t) : view User.t :=
  mret current_user.

(** [GET /users/resend_email_confirmation]; [current_user] is the user
    authenticated by [token_auth].  [utcnow1] is the time stamped into the
    token, [utcnow2] the reading of [confirmation_email_link_sent]. *)
Definition resend_email_confirmation (utcnow1 utcnow2 : datetime.t)
    (current_user : User.t) : view User.t :=
  let user := current_user in
  (* Check if the user's email has already been confirmed *)
  _ ← (if User.email_confirmed user then abort 400 else mret tt);
  (* Email to confirm the new user's email address *)
  let msg := generate_confirmation_email utcnow1 (User.email user) in
  _ ← start_email_thread msg;
  (* Record that the email confirmation was sent again *)
  let user := User.confirmation_email_link_sent utcnow2 user in
  _ ← database.session_add user;
  _ ← database.session_commit;
  mret user.


End routes.
End users_api.

(** [LoginForm()] (from [forms.py]), bound to the current request. *)
Module LoginForm.
Record t : Type := {
  validate_on_submit : bool;
  email_data : string;
  password_data : string;
  remember_me_data : bool
}.
End LoginForm.

(** What [admin_login] answers: [login_user(user, remember=remember)]
    followed by a redirect, or the login page rendered with the form. *)
Inductive login_response : Type :=
| LoggedIn (user : User.t) (remember : bool) (target : url)
| LoginPage (template : string) (form : LoginForm.t).

(** What [admin_list_users] answers: the redirect of a decorator, or the
    page of users rendered with its [users], each with the attribute
    [number_of_journal_entries] the loop gives it. *)
Inductive listing_response : Type :=
| ListingRedirect (target : url)
| ListingPage (template : string) (users : list (User.t * Z)).

(** ** project/admin/routes.py *)

Module admin.

(** [@login_required] of Flask-Login, with [login.login_view] set to
    ["admin.admin_login"] in [project/__init__.py]: an anonymous visitor
    ([current_user] is [None] here) is sent to the login page. *)
Definition login_required (current_user : option User.t) (func : view response)
    : view response :=
  match current_user with
  | Some _ => func
  | None =>
      _ ← flash "Please log in to access this page." "message";
      mret (Redirect (url_for "admin.admin_login"))
  end.

(** [@admin_required] *)
Definition admin_required (current_user : option User.t) (func : view response)
    : view response :=
  user ← getattr_of current_user;
  if bool_decide (User.user_type user ≠ "Admin") then abort 403 else func.

(** [for entry in entries: database.session.delete(entry)] *)
Fixpoint delete_each (entries : list Entry.t) : view unit :=
  match entries with
  | [] => mret tt
  | entry :: rest =>
      _ ← database.session_delete entry;
      delete_each rest
  end.

(** Body of [admin_revoke_token(index)] *)
Definition admin_revoke_token_body (utcnow : datetime.t) (index : Z) : view response :=
  user ← database.User_query_filter_by_id_first_or_404 index;
  let user := User.revoke_auth_token utcnow user in
  _ ← database.session_add user;
  _ ← database.session_commit;
  _ ← flash ("Authentication token revoked for " +:+ User.email user) "success";
  mret (Redirect (url_for "admin.admin_list_users")).

(** [GET /admin/users/<int:index>/revoke_token] *)
Definition admin_revoke_token (current_user : option User.t) (utcnow : datetime.t)
    (index : Z) : view response :=
  login_required current_user
    (admin_required current_user (admin_revoke_token_body utcnow index)).

(** Body of [admin_delete_user(index)] *)
Definition admin_delete_user_body (index : Z) : view response :=
  user ← database.User_query_filter_by_id_first_or_404 index;
  if bool_decide (User.user_type user = "Admin") then
    _ ← flash ("Cannot delete Administrator (" +:+ User.email user +:+ ")!") "error";
    mret (Redirect (url_for "admin.admin_list_users"))
  else
    (* First, delete all the journal entries associated with the user *)
    entries ← database.Entry_query_filter_by_user_id (User.id user);
    _ ← delete_each entries;
    (* Second, delete the user *)
    _ ← database.session_delete_user user;
    _ ← database.session_commit;
    _ ← flash ("User (" +:+ User.email user
               +:+ ") and their associated journal entries were deleted!") "success";
    mret (Redirect (url_for "admin.admin_list_users")).

(** [GET /admin/users/<int:index>/delete_user] *)
Definition admin_delete_user (current_user : option User.t) (index : Z) : view response :=
  login_required current_user
    (admin_required current_user (admin_delete_user_body index)).

(** [flask admin create_admin_user EMAIL PASSWORD]; returns the line given
    to [click.echo].  No exception is caught here. *)
Definition create `{Collaborators} (utcnow1 utcnow2 : datetime.t) (salt : string)
    (email password : string) : view string :=
  let admin_user := User.__init__ utcnow1 utcnow2 salt email password "Admin" in
  _ ← database.session_add admin_user;
  _ ← database.session_commit;
  mret ("Created new admin user (" +:+ email +:+ ")!").

(** [GET|POST /admin/login]; [request_method] is [request.method]. *)
Definition admin_login `{Collaborators} (request_method : string) (form : LoginForm.t)
    : view login_response :=
  let login_page : view login_response :=
    mret (LoginPage "admin/login.html" form) in
  if bool_decide (request_method = "POST") then
    let failed : view login_response :=
      _ ← flash "ERROR! Incorrect login credentials." "error";
      login_page in
    if LoginForm.validate_on_submit form then
      user ← database.User_query_filter_by_email (LoginForm.email_data form);
      match user with
      | Some user =>
          if User.is_password_correct user (LoginForm.password_data form)
             && bool_decide (User.user_type user = "Admin")
          then
            (* Admin user's credentials have been validated, so log them in *)
            _ ← logger_info ("Logged in user: " +:+ User.email user);
            mret (LoggedIn user (LoginForm.remember_me_data form)
                    (url_for "admin.admin_list_users"))
          else failed
      | None => failed
      end
    else failed
  else login_page.

(** [order_by(User.id)]: ascending, NULL first. *)
Definition id_le (a b : User.t) : Prop :=
  match User.id a, User.id b with
  | None, _ => True
  | Some _, None => False
  | Some x, Some y => x <= y
  end.

#[global] Instance id_le_dec (a b : User.t) : Decision (id_le a b).
Proof. unfold id_le. destruct (User.id a), (User.id b); apply _. Defined.

(** The two decorators once more, for a view that answers with a page of
    its own kind; [redirect] is how that kind carries a redirect.  On the
    views that answer a [response] they are [login_required] and
    [admin_required]. *)
Definition login_required_for {A} (redirect : url -> A) (current_user : option User.t)
    (func : view A) : view A :=
  match current_user with
  | Some _ => func
  | None =>
      _ ← flash "Please log in to access this page." "message";
      mret (redirect (url_for "admin.admin_login"))
  end.

Definition admin_required_for {A} (current_user : option User.t) (func : view A)
    : view A :=
  user ← getattr_of current_user;
  if bool_decide (User.user_type user ≠ "Admin") then abort 403 else func.

(** Body of [admin_list_users()] *)
Definition admin_list_users_body : view listing_response :=
  w ← get_state;
  let users := merge_sort id_le (users w) in
  let users :=
    (fun user =>
       (user, len (filter (fun e => Entry.user_id e = User.id user) (entries w))))
    <$> users in
  mret (ListingPage "admin/users.html" users).

(** [GET /admin/users/] *)
Definition admin_list_users (current_user : option User.t) : view listing_response :=
  login_required_for ListingRedirect current_user
    (admin_required_for current_user admin_list_users_body).

(** Body of [admin_confirm_email(index)] *)
Definition admin_confirm_email_body (utcnow : datetime.t) (index : Z) : view response :=
  user ← database.User_query_filter_by_id_first_or_404 index;
  let user := User.confirm_email_address utcnow user in
  _ ← database.session_add user;
  _ ← database.session_commit;
  _ ← flash ("Email address confirmed for " +:+ User.email user) "success";
  mret (Redirect (url_for "admin.admin_list_users")).

(** [GET /admin/users/<int:index>/confirm_email] *)
Definition admin_confirm_email (current_user : option User.t) (utcnow : datetime.t)
    (index : Z) : view response :=
  login_required current_user
    (admin_required current_user (admin_confirm_email_body utcnow index)).

(** Body of [admin_unconfirm_email(index)] *)
Definition admin_unconfirm_email_body (index : Z) : view response :=
  user ← database.User_query_filter_by_id_first_or_404 index;
  let user := User.revoke_email_address_confirmation user in
  _ ← database.session_add user;
  _ ← database.session_commit;
  _ ← flash ("Email address confirmation revoked for " +:+ User.email user) "success";
  mret (Redirect (url_for "admin.admin_list_users")).

(** [GET /admin/users/<int:index>/unconfirm_email] *)
Definition admin_unconfirm_email (current_user : option User.t) (index : Z)
    : view response :=
  login_required current_user
    (admin_required current_user (admin_unconfirm_email_body index)).

(** Body of [admin_change_password(index)]; [form] is the [PasswordForm]
    of the request. *)
Definition admin_change_password_body `{Collaborators} (salt : string)
    (request_method : string) (form : PasswordForm) (index : Z) : view response :=
  user ← database.User_query_filter_by_id_first_or_404 index;
  if bool_decide (request_method = "POST") && validate_on_submit form then
    let user := User.set_password salt user (password_data form) in
    _ ← database.session_add user;
    _ ← database.session_commit;
    _ ← flash ("Password changed for " +:+ User.email user) "success";
    mret (Redirect (url_for "admin.admin_list_users"))
  else
    mret (Page (render_template "admin/change_password.html" [("form", CForm form)])).

(** [GET|POST /admin/users/<int:index>/change_password] *)
Definition admin_change_password `{Collaborators} (current_user : option User.t)
    (salt : string) (request_method : string) (form : PasswordForm) (index : Z)
    : view response :=
  login_required current_user
    (admin_required current_user (admin_change_password_body salt request_method form index)).

End admin.

(** ** A concrete set of collaborators, for running the routes

    Hashing prefixes the salt; the serializer writes the salt in front of
    the payload and accepts a token only under the salt it was written
    with.  It stands for the libraries in the executable examples below. *)
Definition example_loads (token salt : string) : outcome string :=
  let prefix := salt +:+ ":" in
  if String.prefix prefix token
  then Return (String.substring (String.length prefix)
                 (String.length token - String.length prefix) token)
  else Raise BadSignature.

#[local] Instance example_collaborators : Collaborators := {|
  SECRET_KEY := "secret";
  generate_password_hash := fun password salt => salt +:+ "$" +:+ password;
  check_password_hash := fun pwhash password =>
    existsb (fun salt => bool_decide (pwhash = salt +:+ "$" +:+ password)) ["s1"; "s2"];
  serializer_dumps := fun _ obj salt _ => salt +:+ ":" +:+ obj;
  serializer_loads := fun _ token salt _ _ => example_loads token salt
|}.

(** Two users and three entries, as [flask fill_db] creates them, and an
    administrator. *)
Definition example_user (id : Z) (email : string) (user_type : string) : User.t :=
  {| User.id := Some id; User.email := email;
     User.password_hashed := "s1$password";
     User.auth_token := None; User.auth_token_expiration := None;
     User.registered_on := 0; User.email_confirmation_sent_on := 0;
     User.email_confirmed := false; User.email_confirmed_on := None;
     User.user_type := user_type |}.

Definition example_entry (id : Z) (text : string) (user_id : Z) : Entry.t :=
  {| Entry.id := Some id; Entry.entry := text; Entry.user_id := Some user_id;
     Entry.created_on := 0; Entry.last_edited_on := 0 |}.

Definition example_world : World :=
  {| users := [example_user 1 "pkennedy@hey.com" "User";
               example_user 2 "patkennedy79@gmail.com" "User";
               example_user 3 "admin@example.com" "Admin"];
     entries := [example_entry 1 "The sun was shining when I woke up this morning." 1;
                 example_entry 2 "I tried a new fruit mixture in my oatmeal for breakfast." 1;
                 example_entry 3 "Today I ate a great sandwich for lunch." 2];
     session := []; flashes := []; log := []; outbox := [] |}.

(** The same state after the first user has obtained a token at time 1000. *)
Definition example_token : string := "Drmhze6EPcv0fN_81Bj-nA".

Definition example_user_with_token : User.t :=
  fst (User.generate_auth_token example_token 1000
         (example_user 1 "pkennedy@hey.com" "User")).

Definition example_world_with_token : World :=
  snd (users_api.get_auth_token example_token 1000
         (example_user 1 "pkennedy@hey.com" "User") example_world).

(** Modelled from the spec: the contract of the signed time-limited token
    service, which is [itsdangerous.URLSafeTimedSerializer] and is not part
    of the package.  The signature is "scoped by a purpose-specific salt
    string" and [verify] "fails with InvalidSignature if the signature
    doesn't match or the salt differs": verification under a salt raises
    [BadSignature] on a token signed under a different salt, and a token
    that verification accepts under a salt, returning a payload, is a
    token signed under that salt for that payload. *)
Definition serializer_salt_scoped `{Collaborators} : Prop :=
  (forall key obj salt salt' t max_age t',
     salt <> salt' ->
     serializer_loads key (serializer_dumps key obj salt t) salt' max_age t'
     = Raise BadSignature) /\
  (forall key token salt max_age t' obj,
     serializer_loads key token salt max_age t' = Return obj ->
     exists t, token = serializer_dumps key obj salt t).

(** A serializer within that contract, for running the routes: a token is
    the salt, preceded by its length in unary, followed by the payload. *)
Fixpoint strip_prefix (p s : string) : option string :=
  match p with
  | EmptyString => Some s
  | String a p' =>
      match s with
      | String b s' => if Ascii.eqb a b then strip_prefix p' s' else None
      | EmptyString => None
      end
  end.

Fixpoint unary (n : nat) : string :=
  match n with
  | O => "0"
  | S n' => String "1" (unary n')
  end.

Definition scope_mark (salt : string) : string :=
  unary (String.length salt) +:+ salt.

Definition scoped_collaborators : Collaborators := {|
  SECRET_KEY := "secret";
  generate_password_hash := fun password salt => salt +:+ "$" +:+ password;
  check_password_hash := fun pwhash password =>
    existsb (fun salt => bool_decide (pwhash = salt +:+ "$" +:+ password)) ["s1"; "s2"];
  serializer_dumps := fun _ obj salt _ => scope_mark salt +:+ obj;
  serializer_loads := fun _ token salt _ _ =>
    match strip_prefix (scope_mark salt) token with
    | Some obj => Return obj
    | None => Raise BadSignature
    end
|}.

(** Number of entries that reference the user, as [admin_list_users]
    computes it for each user. *)
Definition entries_of (es : list Entry.t) (u : User.t) : Z :=
  len (filter (fun e => Entry.user_id e = User.id u) es).

(** Well-formedness of table [users] that the code maintains: a row that
    holds a token holds its expiration too (they are assigned together);
    emails are distinct (UNIQUE); primary keys are set and distinct. *)
Definition tokens_dated (us : list User.t) : Prop :=
  forall r, r ∈ us -> is_Some (User.auth_token r) -> is_Some (User.auth_token_expiration r).

Definition keys_set (us : list User.t) : Prop :=
  forall r, r ∈ us -> is_Some (User.id r).

(** * Properties *)

(** Unfolds the monadic plumbing so that a handler applied to a state
    reduces to its case analysis. *)
Ltac run_monad :=
  cbv beta delta [mbind M_bind mret M_ret get_state put_state modify_state
                  abort raise lift_outcome try_except] in *;
  cbn beta iota.

(** ** The handler monad *)

Lemma run_bind {S A B} (m : M S A) (f : A -> M S B) (s : S) :
  (m ≫= f) s
  = match m s with
    | (Return a, s') => f a s'
    | (Raise e, s') => (Raise e, s')
    end.
Proof. reflexivity. Qed.

Lemma run_ret {S A} (a : A) (s : S) : (mret a : M S A) s = (Return a, s).
Proof. reflexivity. Qed.

Lemma bind_ret_l {S A B} (a : A) (f : A -> M S B) (s : S) :
  (mret a ≫= f) s = f a s.
Proof. reflexivity. Qed.

Lemma bind_ret_r {S A} (m : M S A) (s : S) :
  (m ≫= mret) s = m s.
Proof. rewrite run_bind. destruct (m s) as [[a | e] s']; reflexivity. Qed.

Lemma bind_assoc {S A B C} (m : M S A) (f : A -> M S B) (g : B -> M S C) (s : S) :
  ((m ≫= f) ≫= g) s = (m ≫= fun a => f a ≫= g) s.
Proof. rewrite !run_bind. destruct (m s) as [[a | e] s']; reflexivity. Qed.

(** An exception cuts the rest of the handler short and keeps the state. *)
Lemma bind_raise {S A B} (e : exn) (f : A -> M S B) (s : S) :
  (raise e ≫= f) s = (Raise e, s).
Proof. reflexivity. Qed.

(** [except BadSignature] also catches [SignatureExpired], and nothing
    else. *)
Lemma isinstance_BadSignature (e : exn) :
  isinstance_exn e BadSignature = true <-> e = BadSignature \/ e = SignatureExpired.
Proof.
  destruct e; cbn; split; intros Hc;
    try discriminate; try (destruct Hc; discriminate); auto.
Qed.

(** ** Sequences *)

Lemma py_index_in_range (n : nat) (i : Z) :
  0 <= i < Z.of_nat n -> py_index n i = Some (Z.to_nat i).
Proof.
  intros Hi. unfold py_index.
  destruct (Z.ltb_spec i 0) as [Hneg | _]; [lia |].
  destruct (Z.leb_spec 0 i) as [_ | Hneg]; [| lia].
  destruct (Z.ltb_spec i (Z.of_nat n)) as [_ | Hge]; [| lia].
  reflexivity.
Qed.

Lemma py_getitem_in_range {A} (l : list A) (i : Z) :
  0 <= i < len l ->
  exists x, l !! Z.to_nat i = Some x /\ py_getitem l i = Return x.
Proof.
  intros Hi. unfold len in Hi.
  destruct (lookup_lt_is_Some_2 l (Z.to_nat i)) as [x Hx]; [lia |].
  exists x. split; [exact Hx |].
  unfold py_getitem. rewrite py_index_in_range by exact Hi.
  rewrite Hx. reflexivity.
Qed.

(** The guard shared by the three indexed handlers of the demo. *)
Lemma demo_guard_in_range {A} (l : list A) (index : Z) :
  1 <= index <= len l -> (index =? 0) || (len l <? index) = false.
Proof.
  intros Hi.
  destruct (Z.eqb_spec index 0); [lia |].
  destruct (Z.ltb_spec (len l) index); [lia | reflexivity].
Qed.

Lemma demo_guard_out_of_range {A} (l : list A) (index : Z) :
  index = 0 \/ len l < index -> (index =? 0) || (len l <? index) = true.
Proof.
  intros Hi.
  destruct (Z.eqb_spec index 0); [reflexivity |].
  destruct (Z.ltb_spec (len l) index); [reflexivity | lia].
Qed.

(** ** project/models.py: entries *)

(** C6. [Entry.update] stores the new text and the current time in
    [last_edited_on]; [created_on], [id] and [user_id] keep the values they
    had before the call. *)
Theorem Entry_update_frame (utcnow : datetime.t) (self : Entry.t) (text : string) :
  Entry.entry (Entry.update utcnow self text) = text /\
  Entry.last_edited_on (Entry.update utcnow self text) = utcnow /\
  Entry.created_on (Entry.update utcnow self text) = Entry.created_on self /\
  Entry.id (Entry.update utcnow self text) = Entry.id self /\
  Entry.user_id (Entry.update utcnow self text) = Entry.user_id self.
Proof. repeat split. Qed.

(** ** project/demo/routes.py *)

(** The fixture is read as written: its first entry was created on
    2022-07-01 at 04:29:50.307527. *)
Example demo_entries_first_created_on :
  (demo.demo_entries !! 0%nat) ≫= (.!! "created_on")
  = Some (VDatetime (datetime.make 2022 7 1 4 29 50 307527)).
Proof. vm_compute. reflexivity. Qed.

(** [GET /journal/<index>] with an index between 1 and the length returns
    the entry at that position and leaves the list as it is. *)
Lemma demo_get_in_range (l : list dict) (index : Z) :
  1 <= index <= len l ->
  exists e, l !! Z.to_nat (index - 1) = Some e /\
            demo.demo_get_journal_entry index l = (Return e, l).
Proof.
  intros Hi.
  destruct (py_getitem_in_range l (index - 1)) as (e & He & Hget); [lia |].
  exists e. split; [exact He |].
  unfold demo.demo_get_journal_entry. run_monad.
  rewrite demo_guard_in_range by exact Hi. cbn beta iota.
  rewrite Hget. reflexivity.
Qed.

Lemma demo_get_out_of_range (l : list dict) (index : Z) :
  index = 0 \/ len l < index ->
  demo.demo_get_journal_entry index l = (Raise (HTTPException 404), l).
Proof.
  intros Hi. unfold demo.demo_get_journal_entry. run_monad.
  rewrite demo_guard_out_of_range by exact Hi. reflexivity.
Qed.

(** C7, as the code has it.  [DELETE /journal/<index>] with an index between
    1 and the number of entries answers 204 with an empty body and leaves
    the list unchanged, so that a later GET of the same index still returns
    the entry; with index 0 or an index above the number of entries it
    fails with 404. *)
Theorem demo_delete_keeps_entries (l : list dict) (index : Z) :
  (1 <= index <= len l ->
     demo.demo_delete_journal_entry index l = (Return (EmptyString, 204), l) /\
     exists e, l !! Z.to_nat (index - 1) = Some e /\
       demo.demo_get_journal_entry index
         (snd (demo.demo_delete_journal_entry index l)) = (Return e, l)) /\
  (index = 0 \/ len l < index ->
     demo.demo_delete_journal_entry index l = (Raise (HTTPException 404), l)).
Proof.
  split; intros Hi.
  - assert (Hdel : demo.demo_delete_journal_entry index l = (Return (EmptyString, 204), l)).
    { unfold demo.demo_delete_journal_entry. run_monad.
      rewrite demo_guard_in_range by exact Hi. reflexivity. }
    split; [exact Hdel |].
    rewrite Hdel. cbn [snd]. apply demo_get_in_range. exact Hi.
  - unfold demo.demo_delete_journal_entry. run_monad.
    rewrite demo_guard_out_of_range by exact Hi. reflexivity.
Qed.

Lemma demo_delete_keeps_entries_witness :
  (demo.demo_delete_journal_entry 1 demo.demo_entries
     = (Return (EmptyString, 204), demo.demo_entries) /\
   exists e, demo.demo_entries !! Z.to_nat (1 - 1) = Some e /\
     demo.demo_get_journal_entry 1
       (snd (demo.demo_delete_journal_entry 1 demo.demo_entries))
     = (Return e, demo.demo_entries)) /\
  demo.demo_delete_journal_entry 6 demo.demo_entries
    = (Raise (HTTPException 404), demo.demo_entries).
Proof.
  split.
  - apply (demo_delete_keeps_entries demo.demo_entries 1). vm_compute. split; discriminate.
  - apply (demo_delete_keeps_entries demo.demo_entries 6). right. vm_compute. reflexivity.
Defined.

(** C7 as stated fails: after [DELETE /journal/1] has answered 204 on the
    initial data, [GET /journal/1] does not answer 404 but returns the
    first entry, which is still in the list. *)
Lemma demo_delete_then_get_counterexample :
  exists l' e,
    demo.demo_delete_journal_entry 1 demo.demo_entries = (Return (EmptyString, 204), l') /\
    demo.demo_get_journal_entry 1 l' = (Return e, l') /\
    e !! "id" = Some (VInt 1) /\
    demo.demo_get_journal_entry 1 l' <> (Raise (HTTPException 404), l').
Proof.
  eexists _, _. split; [reflexivity |]. split; [reflexivity |].
  split; [vm_compute; reflexivity | discriminate].
Qed.

(** C8, as the code has it.  [POST /journal/] answers 201 with an entry
    whose id is the number of entries plus one, whose text is the text
    received, and whose [created_on] and [last_edited_on] are the two clock
    readings taken while building it; the list is left unchanged, so that a
    later GET of the assigned id fails with 404. *)
Theorem demo_add_returns_unsaved_entry (utcnow1 utcnow2 : datetime.t)
    (kwargs : NewEntrySchema) (l : list dict) :
  exists e,
    demo.demo_add_journal_entry utcnow1 utcnow2 kwargs l = (Return (e, 201), l) /\
    e !! "id" = Some (VInt (len l + 1)) /\
    e !! "entry" = Some (VStr (kw_entry kwargs)) /\
    e !! "user_id" = Some (VInt 0) /\
    e !! "created_on" = Some (VDatetime utcnow1) /\
    e !! "last_edited_on" = Some (VDatetime utcnow2) /\
    demo.demo_get_journal_entry (len l + 1)
      (snd (demo.demo_add_journal_entry utcnow1 utcnow2 kwargs l))
    = (Raise (HTTPException 404), l).
Proof.
  eexists. split; [reflexivity |].
  repeat (split; [reflexivity |]).
  cbn [snd demo.demo_add_journal_entry]. run_monad. cbn [snd].
  apply demo_get_out_of_range. right. lia.
Qed.

(** C8 as stated fails: the entry returned by [POST /journal/] on the
    initial data carries id 6, and [GET /journal/6] right after it answers
    404, the list still holding its five entries; and with two clock
    readings one microsecond apart [created_on] differs from
    [last_edited_on]. *)
Lemma demo_add_then_get_counterexample :
  exists e l',
    demo.demo_add_journal_entry
      (datetime.make 2022 7 4 9 0 0 17) (datetime.make 2022 7 4 9 0 0 18)
      {| kw_entry := "Had coffee" |} demo.demo_entries
      = (Return (e, 201), l') /\
    e !! "id" = Some (VInt 6) /\
    e !! "created_on" <> e !! "last_edited_on" /\
    l' = demo.demo_entries /\
    demo.demo_get_journal_entry 6 l' = (Raise (HTTPException 404), l').
Proof.
  eexists _, _. split; [reflexivity |].
  split; [reflexivity |]. split; [vm_compute; discriminate |].
  split; reflexivity.
Qed.

(** [PUT /journal/<index>] with an index between 1 and the number of
    entries writes the new text under key ["entry"] of the dictionary at
    that position, in the list itself, and touches no other key and no
    other position. *)
Lemma demo_update_in_range (kwargs : NewEntrySchema) (l : list dict) (index : Z) :
  1 <= index <= len l ->
  exists e,
    l !! Z.to_nat (index - 1) = Some e /\
    demo.demo_update_journal_entry kwargs index l
    = (Return (<["entry" := VStr (kw_entry kwargs)]> e),
       <[Z.to_nat (index - 1) := <["entry" := VStr (kw_entry kwargs)]> e]> l).
Proof.
  intros Hi.
  destruct (py_getitem_in_range l (index - 1)) as (e & He & Hget); [lia |].
  exists e. split; [exact He |].
  unfold demo.demo_update_journal_entry. run_monad.
  rewrite demo_guard_in_range by exact Hi. cbn beta iota.
  rewrite Hget. cbn beta iota.
  rewrite py_index_in_range by (unfold len in Hi; lia).
  reflexivity.
Qed.

(** An update in range stores the new text and keeps [created_on]; out of
    range it fails with 404. *)
Lemma demo_update_text_and_created_on (kwargs : NewEntrySchema) (l : list dict) (index : Z) :
  (1 <= index <= len l ->
     exists e e' l',
       l !! Z.to_nat (index - 1) = Some e /\
       demo.demo_update_journal_entry kwargs index l = (Return e', l') /\
       l' !! Z.to_nat (index - 1) = Some e' /\
       e' !! "entry" = Some (VStr (kw_entry kwargs)) /\
       e' !! "created_on" = e !! "created_on") /\
  (index = 0 \/ len l < index ->
     demo.demo_update_journal_entry kwargs index l = (Raise (HTTPException 404), l)).
Proof.
  split; intros Hi.
  - destruct (demo_update_in_range kwargs l index Hi) as (e & He & Hupd).
    eexists e, _, _. split; [exact He |]. split; [exact Hupd |].
    split; [| split].
    + apply list_lookup_insert_eq. unfold len in Hi. lia.
    + apply lookup_insert_eq.
    + apply lookup_insert_ne. discriminate.
  - unfold demo.demo_update_journal_entry. run_monad.
    rewrite demo_guard_out_of_range by exact Hi. reflexivity.
Qed.

(** The update never writes key ["last_edited_on"]: the entry returned, and
    stored, carries the timestamp the entry had before the call. *)
Lemma demo_update_keeps_last_edited_on (kwargs : NewEntrySchema) (l : list dict)
    (index : Z) :
  1 <= index <= len l ->
  exists e e' l',
    l !! Z.to_nat (index - 1) = Some e /\
    demo.demo_update_journal_entry kwargs index l = (Return e', l') /\
    e' !! "last_edited_on" = e !! "last_edited_on".
Proof.
  intros Hi.
  destruct (demo_update_in_range kwargs l index Hi) as (e & He & Hupd).
  eexists e, _, _. split; [exact He |]. split; [exact Hupd |].
  apply lookup_insert_ne. discriminate.
Qed.

(** No handler of the demo changes the number of entries: the valid
    indices stay 1...5 for as long as the process runs. *)
Lemma demo_length_invariant (l : list dict) (index : Z) (utcnow1 utcnow2 : datetime.t)
    (kwargs : NewEntrySchema) :
  length (snd (demo.demo_journal l)) = length l /\
  length (snd (demo.demo_add_journal_entry utcnow1 utcnow2 kwargs l)) = length l /\
  length (snd (demo.demo_get_journal_entry index l)) = length l /\
  length (snd (demo.demo_update_journal_entry kwargs index l)) = length l /\
  length (snd (demo.demo_delete_journal_entry index l)) = length l.
Proof.
  split; [reflexivity |]. split; [reflexivity |].
  unfold demo.demo_get_journal_entry, demo.demo_update_journal_entry,
    demo.demo_delete_journal_entry.
  run_monad.
  destruct ((index =? 0) || (len l <? index)); cbn beta iota;
    [repeat split |].
  destruct (py_getitem l (index - 1)); cbn beta iota; [| repeat split].
  split; [reflexivity |]. split; [| reflexivity].
  cbn [snd]. destruct (py_index (length l) (index - 1)); [| reflexivity].
  apply length_insert.
Qed.

(** C9, where the code departs from it.  [PUT /journal/1] with the text
    "Had tea" on the initial data returns, and stores, the first entry with
    the new text and with [last_edited_on] still at 2022-07-01
    04:29:50.307527, the value of [created_on]: the timestamp is not
    refreshed, whatever the time of the request. *)
Theorem demo_update_stale_last_edited_on :
  exists e l',
    demo.demo_update_journal_entry {| kw_entry := "Had tea" |} 1 demo.demo_entries
      = (Return e, l') /\
    l' !! 0%nat = Some e /\
    e !! "entry" = Some (VStr "Had tea") /\
    e !! "created_on" = Some (VDatetime (datetime.make 2022 7 1 4 29 50 307527)) /\
    e !! "last_edited_on" = Some (VDatetime (datetime.make 2022 7 1 4 29 50 307527)).
Proof.
  destruct (demo_update_in_range {| kw_entry := "Had tea" |} demo.demo_entries 1)
    as (e & He & Hupd); [vm_compute; split; discriminate |].
  change (Z.to_nat (1 - 1)) with 0%nat in *.
  injection He as <-.
  eexists _, _. split; [exact Hupd |].
  repeat split; vm_compute; reflexivity.
Qed.

(** ** Queries *)

Section query.
Context {A : Type} (P : A -> Prop) `{!forall x, Decision (P x)}.

(** [.first()] on a query that every matching row answers with the same
    object. *)
Lemma head_filter_all_eq (l : list A) (x : A) :
  x ∈ l -> P x -> (forall y, y ∈ l -> P y -> y = x) ->
  head (filter P l) = Some x.
Proof.
  intros Hin HP Hall.
  destruct (filter P l) as [| y l'] eqn:Hf.
  - assert (Hx : x ∈ filter P l) by (apply list_elem_of_filter; done).
    rewrite Hf in Hx. inversion Hx.
  - cbn. f_equal.
    assert (Hy : y ∈ filter P l) by (rewrite Hf; left).
    apply list_elem_of_filter in Hy as [HPy Hyl]. auto.
Qed.

Lemma head_filter_none (l : list A) :
  (forall y, y ∈ l -> ~ P y) -> head (filter P l) = None.
Proof.
  intros Hall.
  destruct (filter P l) as [| y l'] eqn:Hf; [reflexivity |].
  assert (Hy : y ∈ filter P l) by (rewrite Hf; left).
  apply list_elem_of_filter in Hy as [HPy Hyl]. destruct (Hall y Hyl HPy).
Qed.

Lemma head_filter_Some (l : list A) (x : A) :
  head (filter P l) = Some x -> x ∈ l /\ P x.
Proof.
  intros Hh.
  assert (Hx : x ∈ filter P l).
  { destruct (filter P l) as [| y l']; [discriminate |].
    injection Hh as ->. left. }
  apply list_elem_of_filter in Hx. tauto.
Qed.

End query.

Lemma with_session_restore (w : World) (p : list pending) :
  session w = [] -> with_session [] (with_session p w) = w.
Proof. destruct w; cbn; intros ->; reflexivity. Qed.

(** ** project/users_api/routes.py: registration *)

(** C4. When the email of a registration request is the email of a user
    already in table [users], [register] ends in [abort(400)] and the
    application state is the one before the request: the tables are
    unchanged, the session holds no pending row after the rollback, and no
    confirmation message was handed out. *)
Theorem register_duplicate_email `{Collaborators} (w : World)
    (utcnow1 utcnow2 : datetime.t) (salt : string) (utcnow3 : datetime.t)
    (kwargs : NewUserSchema) :
  session w = [] ->
  kw_email kwargs ∈ User.email <$> users w ->
  users_api.register utcnow1 utcnow2 salt utcnow3 kwargs w
  = (Raise (HTTPException 400), w).
Proof.
  intros Hs Hdup.
  unfold users_api.register, database.session_add, database.session_commit,
    database.session_rollback.
  run_monad. rewrite Hs. cbn.
  rewrite bool_decide_eq_true_2 by exact Hdup. cbn.
  f_equal. apply (with_session_restore w _ Hs).
Qed.

Lemma register_duplicate_email_witness :
  session example_world = [] /\
  "pkennedy@hey.com" ∈ User.email <$> users example_world /\
  users_api.register 10 11 "s2" 12
    {| kw_email := "pkennedy@hey.com"; kw_password_plaintext := "FlaskIsAwesome123" |}
    example_world
  = (Raise (HTTPException 400), example_world).
Proof.
  split; [reflexivity |]. split; [cbn; left |].
  apply (register_duplicate_email example_world 10 11 "s2" 12
           {| kw_email := "pkennedy@hey.com";
              kw_password_plaintext := "FlaskIsAwesome123" |}).
  - reflexivity.
  - cbn. left.
Defined.

(** With an email that no user has, the registration inserts one row, with
    the next primary key, and hands out one confirmation message. *)
Lemma register_fresh_email `{Collaborators} (w : World)
    (utcnow1 utcnow2 : datetime.t) (salt : string) (utcnow3 : datetime.t)
    (kwargs : NewUserSchema) :
  session w = [] ->
  kw_email kwargs ∉ User.email <$> users w ->
  exists new_user w',
    users_api.register utcnow1 utcnow2 salt utcnow3 kwargs w
      = (Return (new_user, 201), w') /\
    new_user
      = User.set_id (Some (database.next_id (User.id <$> users w)))
          (User.__init__ utcnow1 utcnow2 salt
             (kw_email kwargs) (kw_password_plaintext kwargs) "User") /\
    users w' = users w ++ [new_user] /\
    entries w' = entries w /\
    session w' = [] /\
    outbox w'
      = outbox w ++ [users_api.generate_confirmation_email utcnow3 (kw_email kwargs)].
Proof.
  intros Hs Hfresh.
  set (new_user := User.set_id (Some (database.next_id (User.id <$> users w)))
                     (User.__init__ utcnow1 utcnow2 salt
                        (kw_email kwargs) (kw_password_plaintext kwargs) "User")).
  assert (Hrow : head (filter (fun u => User.email u = kw_email kwargs)
                         (users w ++ [new_user])) = Some new_user).
  { apply head_filter_all_eq.
    - apply elem_of_app. right. left.
    - reflexivity.
    - intros y Hy Hemail. apply elem_of_app in Hy as [Hy | Hy].
      + destruct Hfresh. rewrite <- Hemail. apply list_elem_of_fmap_2. exact Hy.
      + apply list_elem_of_singleton in Hy. exact Hy. }
  exists new_user. eexists. split.
  - unfold users_api.register, database.session_add, database.session_commit,
      database.User_query_filter_by_email, start_email_thread.
    run_monad. rewrite Hs. cbn.
    rewrite bool_decide_eq_false_2 by exact Hfresh. cbn.
    fold new_user. rewrite Hrow. cbn. reflexivity.
  - cbn. repeat split.
Qed.

(** ** project/users_api/routes.py: links sent by email *)

(** C10. A confirmation token that the serializer accepts (signature valid,
    age within 3600 seconds) and whose email belongs to no user makes
    [confirm_email] raise [AttributeError] on [user.email_confirmed]: the
    lookup returned [None], no page is rendered and nothing is written.
    The branch that renders the "invalid" page is taken exactly on
    [BadSignature], of which [SignatureExpired] is a subclass.  The
    password-reset view, given an accepted token for an unknown email and a
    valid submitted form, tests [user is None] and renders its "invalid"
    page instead. *)
Theorem confirm_email_unknown_user_raises `{Collaborators} (w : World)
    (utcnow now : datetime.t) (remote_addr token email : string) :
  serializer_loads SECRET_KEY token "email-confirmation-salt" 3600 utcnow = Return email ->
  email ∉ User.email <$> users w ->
  users_api.confirm_email utcnow now remote_addr token w = (Raise AttributeError, w) /\
  (forall token' e,
     serializer_loads SECRET_KEY token' "email-confirmation-salt" 3600 utcnow = Raise e ->
     (e = BadSignature \/ e = SignatureExpired ->
      users_api.confirm_email utcnow now remote_addr token' w
      = (Return (render_template "users_api/email_confirmation_invalid.html" []),
         with_log (log w ++ ["Invalid or expired confirmation link received from IP address: "
                             +:+ remote_addr]) w)) /\
     (e <> BadSignature -> e <> SignatureExpired ->
      users_api.confirm_email utcnow now remote_addr token' w = (Raise e, w))) /\
  (forall utcnow' salt form token',
     serializer_loads SECRET_KEY token' "password-reset-salt" 3600 utcnow' = Return email ->
     validate_on_submit form = true ->
     users_api.process_password_reset_token utcnow' salt form token' w
     = (Return (render_template "users_api/password_reset_invalid.html" []), w)).
Proof.
  intros Hloads Hunknown.
  assert (Hnone : head (filter (fun u => User.email u = email) (users w)) = None).
  { apply head_filter_none. intros y Hy Hemail. apply Hunknown.
    rewrite <- Hemail. apply list_elem_of_fmap_2. exact Hy. }
  split; [| split].
  - unfold users_api.confirm_email, database.User_query_filter_by_email, getattr_of.
    run_monad. rewrite Hloads. cbn beta iota. rewrite Hnone. reflexivity.
  - intros token' e Hraise. split.
    + intros He. unfold users_api.confirm_email, logger_info. run_monad.
      rewrite Hraise. cbn beta iota.
      destruct He as [-> | ->]; reflexivity.
    + intros Hbad Hexp. unfold users_api.confirm_email. run_monad.
      rewrite Hraise. cbn beta iota.
      destruct e; try reflexivity; congruence.
  - intros utcnow' salt form token' Hloads' Hvalid.
    unfold users_api.process_password_reset_token,
      database.User_query_filter_by_email.
    run_monad. rewrite Hloads'. cbn beta iota. rewrite Hvalid. rewrite Hnone.
    reflexivity.
Qed.

Lemma confirm_email_unknown_user_raises_witness :
  serializer_loads SECRET_KEY "email-confirmation-salt:nobody@example.com"
    "email-confirmation-salt" 3600 5 = Return "nobody@example.com" /\
  ("nobody@example.com" ∉ User.email <$> users example_world) /\
  users_api.confirm_email 5 6 "203.0.113.7" "email-confirmation-salt:nobody@example.com"
    example_world
  = (Raise AttributeError, example_world) /\
  users_api.process_password_reset_token 5 "s2"
    {| validate_on_submit := true; password_data := "NewPassword1" |}
    "password-reset-salt:nobody@example.com" example_world
  = (Return (render_template "users_api/password_reset_invalid.html" []), example_world).
Proof.
  assert (Hloads : serializer_loads SECRET_KEY "email-confirmation-salt:nobody@example.com"
                     "email-confirmation-salt" 3600 5 = Return "nobody@example.com")
    by reflexivity.
  assert (Hunknown : "nobody@example.com" ∉ User.email <$> users example_world).
  { cbn. intros Hin. repeat (apply elem_of_cons in Hin as [Heq | Hin]; [discriminate |]).
    inversion Hin. }
  destruct (confirm_email_unknown_user_raises example_world 5 6 "203.0.113.7"
              "email-confirmation-salt:nobody@example.com" "nobody@example.com"
              Hloads Hunknown) as (Hconfirm & _ & Hreset).
  split; [exact Hloads |]. split; [exact Hunknown |].
  split; [exact Hconfirm |].
  apply Hreset; reflexivity.
Defined.

(** Run with the example serializer, which accepts a token only under the
    salt it was written with: the token mailed by
    [generate_confirmation_email] for a@example.com confirms nothing at the
    password-reset view, which renders its "invalid" page, while the token
    mailed by [generate_password_reset_email] is accepted there. *)
Example confirmation_token_at_password_reset_view :
  let form := {| validate_on_submit := false; password_data := EmptyString |} in
  let confirmation_token :=
    serializer_dumps SECRET_KEY "a@example.com" "email-confirmation-salt" 100 in
  let password_reset_token :=
    serializer_dumps SECRET_KEY "a@example.com" "password-reset-salt" 100 in
  fst (users_api.process_password_reset_token 200 "s2" form confirmation_token
         example_world)
    = Return (render_template "users_api/password_reset_invalid.html" []) /\
  fst (users_api.process_password_reset_token 200 "s2" form password_reset_token
         example_world)
    = Return (render_template "users_api/reset_password_with_token.html"
                [("form", CForm form)]).
Proof. split; reflexivity. Qed.

(** ** project/users_api/routes.py: one salt per purpose *)

Lemma strip_prefix_app (p s : string) : strip_prefix p (p +:+ s) = Some s.
Proof.
  induction p as [| a p IH]; [reflexivity |].
  change (strip_prefix (String a p) (String a p +:+ s))
    with (if Ascii.eqb a a then strip_prefix p (p +:+ s) else None).
  rewrite Ascii.eqb_refl. exact IH.
Qed.

Lemma strip_prefix_Some (p t s : string) :
  strip_prefix p t = Some s -> t = p +:+ s.
Proof.
  revert t. induction p as [| a p IH]; intros t Hstrip.
  - cbn in Hstrip. injection Hstrip as ->. reflexivity.
  - destruct t as [| b t]; [discriminate |].
    change (strip_prefix (String a p) (String b t))
      with (if Ascii.eqb a b then strip_prefix p t else None) in Hstrip.
    destruct (Ascii.eqb_spec a b) as [-> | Hne]; [| discriminate].
    change (String b p +:+ s) with (String b (p +:+ s)).
    f_equal. apply IH. exact Hstrip.
Qed.

Lemma unary_app_inj (n m : nat) (x y : string) :
  unary n +:+ x = unary m +:+ y -> n = m /\ x = y.
Proof.
  revert m. induction n as [| n IH]; intros [| m] Heq.
  - change (String "0" x = String "0" y) in Heq.
    injection Heq as ->. split; reflexivity.
  - change (String "0" x = String "1" (unary m +:+ y)) in Heq. discriminate.
  - change (String "1" (unary n +:+ x) = String "0" y) in Heq. discriminate.
  - change (String "1" (unary n +:+ x) = String "1" (unary m +:+ y)) in Heq.
    injection Heq as Heq. destruct (IH m Heq) as [-> ->]. split; reflexivity.
Qed.

Lemma append_same_length_inj (s s' a b : string) :
  String.length s = String.length s' -> s +:+ a = s' +:+ b -> s = s'.
Proof.
  revert s'. induction s as [| c s IH]; intros [| c' s'] Hlen Heq;
    try discriminate; [reflexivity |].
  change (String c (s +:+ a) = String c' (s' +:+ b)) in Heq.
  change (S (String.length s) = S (String.length s')) in Hlen.
  injection Hlen as Hlen. injection Heq as -> Heq.
  f_equal. apply IH; assumption.
Qed.

Lemma string_app_assoc (a b c : string) : (a +:+ b) +:+ c = a +:+ (b +:+ c).
Proof.
  induction a as [| x a IH]; [reflexivity |].
  change (String x ((a +:+ b) +:+ c) = String x (a +:+ (b +:+ c))).
  rewrite IH. reflexivity.
Qed.

(** The marks of two salts that differ never start the same token. *)
Lemma scope_mark_isolates (salt salt' obj : string) :
  salt <> salt' -> strip_prefix (scope_mark salt') (scope_mark salt +:+ obj) = None.
Proof.
  intros Hne.
  destruct (strip_prefix (scope_mark salt') (scope_mark salt +:+ obj)) as [r |] eqn:Hstrip;
    [| reflexivity].
  apply strip_prefix_Some in Hstrip. unfold scope_mark in Hstrip.
  rewrite !string_app_assoc in Hstrip.
  apply unary_app_inj in Hstrip as [Hlen Heq].
  destruct Hne. apply (append_same_length_inj salt salt' obj r); assumption.
Qed.

(** The example serializer with marked salts is within the contract. *)
Lemma scoped_collaborators_salt_scoped : @serializer_salt_scoped scoped_collaborators.
Proof.
  split.
  - intros key obj salt salt' t max_age t' Hne. cbn.
    rewrite (scope_mark_isolates salt salt' obj Hne). reflexivity.
  - intros key token salt max_age t' obj. cbn.
    destruct (strip_prefix (scope_mark salt) token) as [r |] eqn:Hstrip; [| discriminate].
    intros [= ->]. exists 0. apply strip_prefix_Some. exact Hstrip.
Qed.

(** C3. With a serializer that scopes its tokens by salt, for every email
    the token that [generate_confirmation_email] puts in its link, signed
    under the email-confirmation salt with the secret key of the
    application, is refused by the verifier of the password-reset view,
    which checks under the password-reset salt with the same key and the
    same maximal age of 3600 seconds: [loads] raises [BadSignature] and the
    view renders its "invalid" page, whatever the form and the time.  The
    only tokens that verifier accepts are tokens signed under the
    password-reset salt. *)
Theorem confirmation_token_refused_at_password_reset `{Collaborators} (w : World)
    (user_email : string) (signed_at utcnow : datetime.t) (salt : string)
    (form : PasswordForm) :
  serializer_salt_scoped ->
  context (html (users_api.generate_confirmation_email signed_at user_email))
    = [("confirm_url",
        CUrl (url_for_token "users_api.confirm_email"
                (serializer_dumps SECRET_KEY user_email "email-confirmation-salt"
                   signed_at)))] /\
  serializer_loads SECRET_KEY
    (serializer_dumps SECRET_KEY user_email "email-confirmation-salt" signed_at)
    "password-reset-salt" 3600 utcnow
    = Raise BadSignature /\
  users_api.process_password_reset_token utcnow salt form
    (serializer_dumps SECRET_KEY user_email "email-confirmation-salt" signed_at) w
    = (Return (render_template "users_api/password_reset_invalid.html" []),
       with_log (log w ++ ["Processed password reset link that is invalid or has expired."])
         w) /\
  (forall token payload,
     serializer_loads SECRET_KEY token "password-reset-salt" 3600 utcnow = Return payload ->
     exists t, token = serializer_dumps SECRET_KEY payload "password-reset-salt" t) /\
  (forall token,
     (forall payload t,
        token <> serializer_dumps SECRET_KEY payload "password-reset-salt" t) ->
     forall payload,
       serializer_loads SECRET_KEY token "password-reset-salt" 3600 utcnow
       <> Return payload).
Proof.
  intros [Hisolated Hsigned].
  assert (Hrefused :
    serializer_loads SECRET_KEY
      (serializer_dumps SECRET_KEY user_email "email-confirmation-salt" signed_at)
      "password-reset-salt" 3600 utcnow = Raise BadSignature)
    by (apply Hisolated; discriminate).
  split; [reflexivity |]. split; [exact Hrefused |]. split; [| split].
  - unfold users_api.process_password_reset_token, logger_info. run_monad.
    rewrite Hrefused. reflexivity.
  - intros token payload Haccepted. apply (Hsigned _ _ _ _ _ _ Haccepted).
  - intros token Hforeign payload Haccepted.
    destruct (Hsigned _ _ _ _ _ _ Haccepted) as [t Htoken].
    apply (Hforeign payload t Htoken).
Qed.

Lemma confirmation_token_refused_at_password_reset_witness :
  @serializer_salt_scoped scoped_collaborators /\
  @users_api.process_password_reset_token scoped_collaborators 200 "s2"
    {| validate_on_submit := true; password_data := "NewPassword1" |}
    (@serializer_dumps scoped_collaborators (@SECRET_KEY scoped_collaborators)
       "a@example.com" "email-confirmation-salt" 100)
    example_world
  = (Return (render_template "users_api/password_reset_invalid.html" []),
     with_log ["Processed password reset link that is invalid or has expired."]
       example_world).
Proof.
  split; [exact scoped_collaborators_salt_scoped |].
  apply (@confirmation_token_refused_at_password_reset scoped_collaborators
           example_world "a@example.com" 100 200 "s2"
           {| validate_on_submit := true; password_data := "NewPassword1" |}
           scoped_collaborators_salt_scoped).
Defined.

(** ** project/models.py: bearer tokens *)

(** [session.add(u')] on a persistent user records an update. *)
Lemma session_add_persistent (w : World) (u' : User.t) :
  is_Some (User.id u') ->
  database.session_add u' w
  = (Return tt, with_session (session w ++ [UpdateUser u']) w).
Proof.
  intros [i Hi]. unfold database.session_add, modify_state. rewrite Hi. reflexivity.
Qed.

(** [session.commit()] with that single update pending rewrites the rows
    carrying the id of [u'] and nothing else. *)
Lemma session_commit_update (w : World) (u' : User.t) :
  session w = [] ->
  database.session_commit (with_session (session w ++ [UpdateUser u']) w)
  = (Return tt, with_tables (database.update_row u' <$> users w) (entries w) w).
Proof.
  intros Hs. unfold database.session_commit. rewrite Hs. cbn.
  f_equal. destruct w; cbn in *; subst; reflexivity.
Qed.

Lemma update_row_same (u' r : User.t) :
  User.id r = User.id u' -> database.update_row u' r = u'.
Proof. intros Hid. unfold database.update_row. case_bool_decide; done. Qed.

Lemma update_row_other (u' r : User.t) :
  User.id r <> User.id u' -> database.update_row u' r = r.
Proof. intros Hid. unfold database.update_row. case_bool_decide; done. Qed.

(** After the update of [u] into [u'], a query on a token that [u'] holds
    and that no row with another id holds answers [u']. *)
Lemma first_by_token_after_update (l : list User.t) (u u' : User.t) (tok : string) :
  u ∈ l ->
  User.id u' = User.id u ->
  User.auth_token u' = Some tok ->
  (forall r, r ∈ l -> User.auth_token r = Some tok -> User.id r = User.id u) ->
  head (filter (fun r => User.auth_token r = Some tok) (database.update_row u' <$> l)) = Some u'.
Proof.
  intros Hin Hid Htok Hfresh.
  apply head_filter_all_eq.
  - apply list_elem_of_fmap. exists u. split; [| exact Hin].
    unfold database.update_row. rewrite bool_decide_eq_true_2; congruence.
  - exact Htok.
  - intros y Hy Hytok.
    apply list_elem_of_fmap in Hy as (r & -> & Hr).
    unfold database.update_row in *. case_bool_decide as Hrid; [reflexivity |].
    exfalso. apply Hrid. rewrite Hid. apply Hfresh; assumption.
Qed.

(** The verdict of [verify_auth_token] once the query is known to answer a
    user whose expiration is set. *)
Lemma verify_auth_token_found (l : list User.t) (u : User.t) (tok : string)
    (expiration t : datetime.t) :
  head (filter (fun r => User.auth_token r = Some tok) l) = Some u ->
  User.auth_token_expiration u = Some expiration ->
  User.verify_auth_token l t tok
  = if t <? expiration then Return (Some u) else Return None.
Proof.
  intros Hhead Hexp. unfold User.verify_auth_token. rewrite Hhead, Hexp. reflexivity.
Qed.

(** C1. [get_auth_token] stores on the user's row the token drawn and the
    expiration "time of issue + 60 minutes".  [verify_auth_token] on that
    token returns the user at every time before the expiration, 59 minutes
    after the issue in particular, and [None] from the expiration on, 61
    minutes after the issue in particular.  The token drawn by
    [secrets.token_urlsafe()] is taken to be held by no other user. *)
Theorem auth_token_valid_for_sixty_minutes (w : World) (u : User.t) (tok : string)
    (t0 : datetime.t) :
  session w = [] ->
  is_Some (User.id u) ->
  u ∈ users w ->
  (forall r, r ∈ users w -> User.auth_token r = Some tok -> User.id r = User.id u) ->
  exists u' w',
    User.generate_auth_token tok t0 u = (u', tok) /\
    User.auth_token u' = Some tok /\
    User.auth_token_expiration u' = Some (t0 + datetime.timedelta 60) /\
    users_api.get_auth_token tok t0 u w = (Return tok, w') /\
    u' ∈ users w' /\
    (forall t, t < t0 + datetime.timedelta 60 ->
       User.verify_auth_token (users w') t tok = Return (Some u')) /\
    (forall t, t0 + datetime.timedelta 60 <= t ->
       User.verify_auth_token (users w') t tok = Return None) /\
    User.verify_auth_token (users w') (t0 + datetime.timedelta 59) tok = Return (Some u') /\
    User.verify_auth_token (users w') (t0 + datetime.timedelta 61) tok = Return None.
Proof.
  intros Hs Hid Hin Hfresh.
  set (u' := fst (User.generate_auth_token tok t0 u)).
  assert (Hid' : User.id u' = User.id u) by reflexivity.
  assert (Htok : User.auth_token u' = Some tok) by reflexivity.
  assert (Hexp : User.auth_token_expiration u' = Some (t0 + datetime.timedelta 60))
    by reflexivity.
  pose proof (first_by_token_after_update (users w) u u' tok Hin Hid' Htok Hfresh)
    as Hfirst.
  assert (Hverify : forall t,
    User.verify_auth_token (database.update_row u' <$> users w) t tok
    = if t <? t0 + datetime.timedelta 60 then Return (Some u') else Return None).
  { intros t. apply verify_auth_token_found; assumption. }
  exists u', (with_tables (database.update_row u' <$> users w) (entries w) w).
  split; [reflexivity |]. split; [exact Htok |]. split; [exact Hexp |].
  split.
  { unfold users_api.get_auth_token.
    change (User.generate_auth_token tok t0 u) with (u', tok). cbn beta iota.
    rewrite run_bind, session_add_persistent by (rewrite Hid'; exact Hid).
    cbn beta iota.
    rewrite run_bind, session_commit_update by exact Hs. reflexivity. }
  cbn [users with_tables].
  split.
  { apply (head_filter_Some _ _ _ Hfirst). }
  unfold datetime.timedelta in *.
  repeat split.
  - intros t Ht. rewrite Hverify.
    destruct (Z.ltb_spec t (t0 + 60 * 60 * 1000000)); [reflexivity | lia].
  - intros t Ht. rewrite Hverify.
    destruct (Z.ltb_spec t (t0 + 60 * 60 * 1000000)); [lia | reflexivity].
  - rewrite Hverify.
    destruct (Z.ltb_spec (t0 + 59 * 60 * 1000000) (t0 + 60 * 60 * 1000000));
      [reflexivity | lia].
  - rewrite Hverify.
    destruct (Z.ltb_spec (t0 + 61 * 60 * 1000000) (t0 + 60 * 60 * 1000000));
      [lia | reflexivity].
Qed.

Lemma auth_token_valid_for_sixty_minutes_witness :
  session example_world = [] /\
  is_Some (User.id (example_user 1 "pkennedy@hey.com" "User")) /\
  example_user 1 "pkennedy@hey.com" "User" ∈ users example_world /\
  exists u' w',
    users_api.get_auth_token example_token 1000
      (example_user 1 "pkennedy@hey.com" "User") example_world = (Return example_token, w') /\
    User.auth_token_expiration u' = Some (1000 + datetime.timedelta 60) /\
    User.verify_auth_token (users w') (1000 + datetime.timedelta 59) example_token
      = Return (Some u') /\
    User.verify_auth_token (users w') (1000 + datetime.timedelta 61) example_token
      = Return None.
Proof.
  assert (Hs : session example_world = []) by reflexivity.
  assert (Hid : is_Some (User.id (example_user 1 "pkennedy@hey.com" "User")))
    by (eexists; reflexivity).
  assert (Hin : example_user 1 "pkennedy@hey.com" "User" ∈ users example_world)
    by (cbn; left).
  assert (Hfresh : forall r, r ∈ users example_world ->
            User.auth_token r = Some example_token ->
            User.id r = User.id (example_user 1 "pkennedy@hey.com" "User")).
  { cbn. intros r Hr Htok.
    repeat (apply elem_of_cons in Hr as [-> | Hr]; [discriminate Htok |]).
    inversion Hr. }
  destruct (auth_token_valid_for_sixty_minutes example_world
              (example_user 1 "pkennedy@hey.com" "User") example_token 1000
              Hs Hid Hin Hfresh)
    as (u' & w' & _ & _ & Hexp & Hroute & _ & _ & _ & H59 & H61).
  repeat (split; [assumption |]).
  exists u', w'. repeat (split; [assumption |]). assumption.
Defined.

(** After the update of [u] into [u'], which keeps the id and holds the
    token, a query on that token which answered [u] answers [u']. *)
Lemma first_by_token_after_change (l : list User.t) (u u' : User.t) (tok : string) :
  head (filter (fun r => User.auth_token r = Some tok) l) = Some u ->
  User.id u' = User.id u ->
  User.auth_token u' = Some tok ->
  head (filter (fun r => User.auth_token r = Some tok) (database.update_row u' <$> l))
  = Some u'.
Proof.
  intros Hhead Hid Htok.
  induction l as [| r l IH]; [discriminate |].
  rewrite fmap_cons, filter_cons. rewrite filter_cons in Hhead.
  destruct (decide (User.id r = User.id u')) as [Hrid | Hrid].
  - rewrite (update_row_same u' r Hrid).
    rewrite decide_True by exact Htok. reflexivity.
  - rewrite (update_row_other u' r Hrid).
    destruct (decide (User.auth_token r = Some tok)) as [Hr | Hr].
    + injection Hhead as ->. congruence.
    + apply IH. exact Hhead.
Qed.

(** What [verify_auth_token] returning a user tells about the table. *)
Lemma verify_auth_token_Some (l : list User.t) (t : datetime.t) (tok : string)
    (u : User.t) :
  User.verify_auth_token l t tok = Return (Some u) ->
  head (filter (fun r => User.auth_token r = Some tok) l) = Some u /\
  User.auth_token u = Some tok /\
  exists expiration, User.auth_token_expiration u = Some expiration /\ t < expiration.
Proof.
  unfold User.verify_auth_token.
  destruct (head (filter _ l)) as [r |] eqn:Hhead; [| discriminate].
  destruct (User.auth_token_expiration r) as [expiration |] eqn:Hexp; [| discriminate].
  destruct (Z.ltb_spec t expiration) as [Hlt | Hge]; [| discriminate].
  intros [= ->]. split; [reflexivity |]. split.
  - destruct (head_filter_Some (fun r => User.auth_token r = Some tok) _ _ Hhead)
      as [_ Htok]. exact Htok.
  - exists expiration. split; [exact Hexp | exact Hlt].
Qed.

(** Once the row of [u] has been rewritten with the same token and the
    expiration [t1], the token is refused from [t1] on. *)
Lemma verify_auth_token_after_expiration_set (l : list User.t) (u u' : User.t)
    (tok : string) (t1 t : datetime.t) :
  head (filter (fun r => User.auth_token r = Some tok) l) = Some u ->
  User.id u' = User.id u ->
  User.auth_token u' = Some tok ->
  User.auth_token_expiration u' = Some t1 ->
  t1 <= t ->
  User.verify_auth_token (database.update_row u' <$> l) t tok = Return None.
Proof.
  intros Hhead Hid Htok Hexp Ht.
  rewrite (verify_auth_token_found _ u' tok t1 t).
  - destruct (Z.ltb_spec t t1); [lia | reflexivity].
  - apply (first_by_token_after_change _ u); assumption.
  - exact Hexp.
Qed.

(** C2. For a user whose token [verify_auth_token] currently accepts,
    [revoke_auth_token] sets the expiration to the current time and leaves
    the token string as it is; once the change is committed, every
    [verify_auth_token] call on that string, at the time of the revocation
    or later, returns [None]. *)
Theorem revoked_token_is_rejected (w : World) (u : User.t) (tok : string)
    (t0 t1 : datetime.t) :
  session w = [] ->
  is_Some (User.id u) ->
  User.verify_auth_token (users w) t0 tok = Return (Some u) ->
  exists w',
    User.auth_token (User.revoke_auth_token t1 u) = User.auth_token u /\
    User.auth_token (User.revoke_auth_token t1 u) = Some tok /\
    User.auth_token_expiration (User.revoke_auth_token t1 u) = Some t1 /\
    (database.session_add (User.revoke_auth_token t1 u)
       ≫= fun _ => database.session_commit) w = (Return tt, w') /\
    forall t, t1 <= t -> User.verify_auth_token (users w') t tok = Return None.
Proof.
  intros Hs Hid Hvalid.
  apply verify_auth_token_Some in Hvalid as (Hhead & Htok & _).
  exists (with_tables (database.update_row (User.revoke_auth_token t1 u) <$> users w)
            (entries w) w).
  split; [reflexivity |]. split; [exact Htok |]. split; [reflexivity |].
  split.
  { rewrite run_bind, session_add_persistent by exact Hid. cbn beta iota.
    apply session_commit_update. exact Hs. }
  intros t Ht. cbn [users with_tables].
  apply (verify_auth_token_after_expiration_set _ u _ tok t1 t);
    [exact Hhead | reflexivity | exact Htok | reflexivity | exact Ht].
Qed.

Lemma revoked_token_is_rejected_witness :
  session example_world_with_token = [] /\
  is_Some (User.id example_user_with_token) /\
  User.verify_auth_token (users example_world_with_token) 2000 example_token
    = Return (Some example_user_with_token) /\
  exists w',
    User.auth_token (User.revoke_auth_token 3000 example_user_with_token)
      = Some example_token /\
    User.auth_token_expiration (User.revoke_auth_token 3000 example_user_with_token)
      = Some 3000 /\
    (database.session_add (User.revoke_auth_token 3000 example_user_with_token)
       ≫= fun _ => database.session_commit) example_world_with_token = (Return tt, w') /\
    User.verify_auth_token (users w') 3000 example_token = Return None /\
    User.verify_auth_token (users w') 3001 example_token = Return None.
Proof.
  assert (Hs : session example_world_with_token = []) by reflexivity.
  assert (Hid : is_Some (User.id example_user_with_token)) by (eexists; reflexivity).
  assert (Hvalid : User.verify_auth_token (users example_world_with_token) 2000
                     example_token = Return (Some example_user_with_token))
    by reflexivity.
  destruct (revoked_token_is_rejected example_world_with_token example_user_with_token
              example_token 2000 3000 Hs Hid Hvalid)
    as (w' & _ & Htok & Hexp & Hcommit & Hrejected).
  repeat (split; [assumption |]).
  exists w'. repeat (split; [assumption |]).
  split; apply Hrejected; lia.
Defined.

(** The two decorators let an administrator through. *)
Lemma admin_decorators_pass (cu : User.t) (func : view response) :
  User.user_type cu = "Admin" ->
  admin.login_required (Some cu) (admin.admin_required (Some cu) func) = func.
Proof.
  intros Hadmin. unfold admin.login_required, admin.admin_required, getattr_of.
  run_monad. rewrite bool_decide_eq_false_2 by (intros Hne; apply Hne, Hadmin).
  reflexivity.
Qed.

(** The two routes that revoke a token.  [PUT /users/account], with the
    right old password, changes the password and revokes the token the
    request came with: that token is refused from then on. *)
Lemma change_password_revokes_token `{Collaborators} (w : World) (u : User.t)
    (tok salt : string) (t0 t1 : datetime.t) (data : ChangePasswordSchema) :
  session w = [] ->
  is_Some (User.id u) ->
  User.verify_auth_token (users w) t0 tok = Return (Some u) ->
  User.is_password_correct u (kw_old_password_plaintext data) = true ->
  exists u' w',
    users_api.change_password salt t1 u data w = (Return u', w') /\
    User.auth_token u' = Some tok /\
    User.password_hashed u'
      = generate_password_hash (kw_new_password_plaintext data) salt /\
    forall t, t1 <= t -> User.verify_auth_token (users w') t tok = Return None.
Proof.
  intros Hs Hid Hvalid Hpw.
  apply verify_auth_token_Some in Hvalid as (Hhead & Htok & _).
  set (u' := User.revoke_auth_token t1
               (User.set_password salt u (kw_new_password_plaintext data))).
  exists u', (with_tables (database.update_row u' <$> users w) (entries w) w).
  split.
  { unfold users_api.change_password. rewrite run_bind, Hpw. cbn beta iota.
    cbn [negb]. rewrite run_ret. cbn beta iota zeta. fold u'.
    rewrite run_bind, session_add_persistent by exact Hid. cbn beta iota.
    rewrite run_bind, session_commit_update by exact Hs. reflexivity. }
  split; [exact Htok |]. split; [reflexivity |].
  intros t Ht. cbn [users with_tables].
  apply (verify_auth_token_after_expiration_set _ u _ tok t1 t);
    [exact Hhead | reflexivity | exact Htok | reflexivity | exact Ht].
Qed.

(** X22. [GET /admin/users/<index>/revoke_token], asked by an
    administrator for the user [u] found by id, who holds an accepted
    token: the view answers with the redirect to the list of users, and the
    token is refused from the time of the request on. *)
Lemma admin_revoke_token_revokes_token (w : World) (cu u : User.t) (index : Z)
    (tok : string) (t0 t1 : datetime.t) :
  session w = [] ->
  User.user_type cu = "Admin" ->
  head (filter (fun r => User.id r = Some index) (users w)) = Some u ->
  User.verify_auth_token (users w) t0 tok = Return (Some u) ->
  exists w',
    admin.admin_revoke_token (Some cu) t1 index w
      = (Return (Redirect (url_for "admin.admin_list_users")), w') /\
    forall t, t1 <= t -> User.verify_auth_token (users w') t tok = Return None.
Proof.
  intros Hs Hcu Hfind Hvalid.
  apply verify_auth_token_Some in Hvalid as (Hhead & Htok & _).
  destruct (head_filter_Some (fun r => User.id r = Some index) _ _ Hfind) as [_ Hid].
  unfold admin.admin_revoke_token. rewrite admin_decorators_pass by exact Hcu.
  unfold admin.admin_revoke_token_body.
  rewrite run_bind. unfold database.User_query_filter_by_id_first_or_404.
  rewrite run_bind. unfold get_state at 1. cbn beta iota. rewrite Hfind.
  rewrite run_ret. cbn beta iota zeta.
  rewrite run_bind, session_add_persistent by (exists index; exact Hid).
  cbn beta iota.
  rewrite run_bind, session_commit_update by exact Hs. cbn beta iota.
  eexists. split; [reflexivity |].
  intros t Ht. cbn [users with_tables with_flashes].
  apply (verify_auth_token_after_expiration_set _ u _ tok t1 t);
    [exact Hhead | reflexivity | exact Htok | reflexivity | exact Ht].
Qed.

(** ** project/admin/routes.py: deletion of a user *)

Lemma filter_ext_in {A} (P Q : A -> Prop)
    `{!forall x, Decision (P x), !forall x, Decision (Q x)} (l : list A) :
  (forall x, x ∈ l -> P x <-> Q x) -> filter P l = filter Q l.
Proof.
  induction l as [| a l IH]; intros Hiff; [reflexivity |].
  rewrite !filter_cons.
  assert (Ha : P a <-> Q a) by (apply Hiff; left).
  rewrite IH by (intros x Hx; apply Hiff; right; exact Hx).
  destruct (decide (P a)), (decide (Q a)); tauto.
Qed.

Lemma fmap_id_in {A} (f : A -> A) (l : list A) :
  (forall x, x ∈ l -> f x = x) -> f <$> l = l.
Proof.
  induction l as [| a l IH]; intros Hf; [reflexivity |].
  rewrite fmap_cons, Hf by left.
  rewrite IH by (intros x Hx; apply Hf; right; exact Hx). reflexivity.
Qed.

(** In a table whose key column holds no value twice, two rows with the
    same key are the same row. *)
Lemma NoDup_fmap_inj_in {A B} (f : A -> B) (l : list A) (x y : A) :
  NoDup (f <$> l) -> x ∈ l -> y ∈ l -> f x = f y -> x = y.
Proof.
  induction l as [| a l IH]; intros Hnd Hx Hy Hf; [inversion Hx |].
  rewrite fmap_cons in Hnd. apply NoDup_cons in Hnd as [Ha Hnd].
  apply elem_of_cons in Hx as [-> | Hx]; apply elem_of_cons in Hy as [-> | Hy].
  - reflexivity.
  - destruct Ha. rewrite Hf. apply list_elem_of_fmap_2. exact Hy.
  - destruct Ha. rewrite <- Hf. apply list_elem_of_fmap_2. exact Hx.
  - apply IH; assumption.
Qed.

Lemma flush_app (ops1 ops2 : list pending) (tb : list User.t * list Entry.t) :
  database.flush (ops1 ++ ops2) tb
  = match database.flush ops1 tb with
    | Return tb' => database.flush ops2 tb'
    | Raise e => Raise e
    end.
Proof.
  revert tb. induction ops1 as [| op ops1 IH]; intros tb; [reflexivity |].
  cbn. destruct (database.flush_op op tb); [apply IH | reflexivity].
Qed.

(** Flushing the deletion of the entries [owned] removes the rows whose
    key is the key of one of them. *)
Lemma flush_delete_entries (owned : list Entry.t) (us : list User.t)
    (es : list Entry.t) :
  database.flush (DeleteEntry <$> owned) (us, es)
  = Return (us, filter (fun r => Entry.id r ∉ Entry.id <$> owned) es).
Proof.
  revert es. induction owned as [| e owned IH]; intros es.
  - cbn. do 2 f_equal. symmetry.
    rewrite (filter_ext_in _ (fun _ => True) es).
    + induction es as [| a es IHes]; [reflexivity |].
      rewrite filter_cons. cbn. f_equal. exact IHes.
    + intros x _. split; [trivial |]. intros _ Hin. inversion Hin.
  - cbn. rewrite IH. do 2 f_equal.
    rewrite list_filter_filter. apply list_filter_iff.
    intros r. rewrite not_elem_of_cons. tauto.
Qed.

(** The loop over the entries records one deletion per entry, in order. *)
Lemma delete_each_run (es : list Entry.t) (w : World) :
  admin.delete_each es w
  = (Return tt, with_session (session w ++ (DeleteEntry <$> es)) w).
Proof.
  revert w. induction es as [| e es IH]; intros w.
  - cbn. rewrite app_nil_r. destruct w; reflexivity.
  - cbn [admin.delete_each]. rewrite run_bind.
    unfold database.session_delete, modify_state. rewrite IH.
    cbn. rewrite <- app_assoc. reflexivity.
Qed.

(** With its primary keys distinct, table [entries] loses exactly the
    entries of the user when the entries selected by [user_id] are deleted
    by key. *)
Lemma delete_owned_entries (es : list Entry.t) (uid : option Z) :
  NoDup (Entry.id <$> es) ->
  filter (fun r => Entry.id r ∉ Entry.id <$> filter (fun e => Entry.user_id e = uid) es) es
  = filter (fun r => Entry.user_id r <> uid) es.
Proof.
  intros Hnd. apply filter_ext_in. intros r Hr. split.
  - intros Hnot Huid. apply Hnot. apply list_elem_of_fmap_2.
    apply list_elem_of_filter. split; assumption.
  - intros Huid Hin. apply list_elem_of_fmap in Hin as (e & Hid & He).
    apply list_elem_of_filter in He as [Heuid He].
    assert (r = e) by (apply (NoDup_fmap_inj_in Entry.id es); assumption).
    subst e. contradiction.
Qed.

(** C5. Let [u] be the user that [admin_delete_user(index)] finds, the
    request coming from an administrator.  If [u] is an administrator the
    view flashes an error and changes neither table.  Otherwise it deletes
    the entries whose [user_id] is the id of [u], then [u]: the tables are
    the former ones less these rows, and no entry that references the
    deleted user remains.  Table [entries] has distinct primary keys. *)
Theorem admin_delete_user_no_orphans (w : World) (cu u : User.t) (index : Z) :
  session w = [] ->
  User.user_type cu = "Admin" ->
  NoDup (Entry.id <$> entries w) ->
  head (filter (fun r => User.id r = Some index) (users w)) = Some u ->
  (User.user_type u = "Admin" ->
     exists w',
       admin.admin_delete_user (Some cu) index w
         = (Return (Redirect (url_for "admin.admin_list_users")), w') /\
       flashes w'
         = flashes w ++ [("Cannot delete Administrator (" +:+ User.email u +:+ ")!", "error")] /\
       users w' = users w /\
       entries w' = entries w /\
       u ∈ users w') /\
  (User.user_type u <> "Admin" ->
     exists w',
       admin.admin_delete_user (Some cu) index w
         = (Return (Redirect (url_for "admin.admin_list_users")), w') /\
       entries w' = filter (fun e => Entry.user_id e <> Some index) (entries w) /\
       users w' = filter (fun r => User.id r <> Some index) (users w) /\
       (forall e, e ∈ entries w' -> Entry.user_id e <> Some index) /\
       (forall r, r ∈ users w' -> User.id r <> Some index) /\
       session w' = [] /\
       flashes w'
         = flashes w ++ [("User (" +:+ User.email u
                           +:+ ") and their associated journal entries were deleted!",
                          "success")]).
Proof.
  intros Hs Hcu Hnd Hfind.
  destruct (head_filter_Some (fun r => User.id r = Some index) _ _ Hfind) as [Hin Hid].
  unfold admin.admin_delete_user. rewrite admin_decorators_pass by exact Hcu.
  unfold admin.admin_delete_user_body, database.User_query_filter_by_id_first_or_404,
    database.Entry_query_filter_by_user_id, database.session_delete_user, flash.
  run_monad. rewrite Hfind. cbn beta iota.
  split; intros Htype.
  - rewrite bool_decide_eq_true_2 by exact Htype. cbn beta iota.
    eexists. split; [reflexivity |]. cbn. repeat split. exact Hin.
  - rewrite bool_decide_eq_false_2 by exact Htype. cbn beta iota.
    rewrite delete_each_run. cbn beta iota.
    unfold database.session_commit. cbn [session with_session users entries].
    rewrite Hs, app_nil_l.
    rewrite flush_app, flush_delete_entries. cbn [database.flush database.flush_op].
    rewrite Hid, (delete_owned_entries _ _ Hnd).
    rewrite (fmap_id_in _ (filter _ (entries w))).
    2:{ intros e He. apply list_elem_of_filter in He as [Hne _].
        rewrite bool_decide_eq_false_2 by exact Hne. reflexivity. }
    eexists. split; [reflexivity |]. cbn.
    split; [reflexivity |]. split; [reflexivity |].
    split; [| split].
    + intros e He. apply list_elem_of_filter in He as [Hne _]. exact Hne.
    + intros r Hr. apply list_elem_of_filter in Hr as [Hne _]. exact Hne.
    + split; reflexivity.
Qed.

Lemma admin_delete_user_no_orphans_witness :
  session example_world = [] /\
  NoDup (Entry.id <$> entries example_world) /\
  (exists w',
     admin.admin_delete_user (Some (example_user 3 "admin@example.com" "Admin")) 1
       example_world
       = (Return (Redirect (url_for "admin.admin_list_users")), w') /\
     entries w' = [example_entry 3 "Today I ate a great sandwich for lunch." 2] /\
     users w' = [example_user 2 "patkennedy79@gmail.com" "User";
                 example_user 3 "admin@example.com" "Admin"]) /\
  (exists w',
     admin.admin_delete_user (Some (example_user 3 "admin@example.com" "Admin")) 3
       example_world
       = (Return (Redirect (url_for "admin.admin_list_users")), w') /\
     flashes w' = [("Cannot delete Administrator (admin@example.com)!", "error")] /\
     users w' = users example_world /\
     entries w' = entries example_world).
Proof.
  assert (Hs : session example_world = []) by reflexivity.
  assert (Hnd : NoDup (Entry.id <$> entries example_world)).
  { cbn. repeat (apply NoDup_cons; split;
                 [intros Hin; repeat (apply elem_of_cons in Hin as [Heq | Hin];
                                      [discriminate |]); inversion Hin |]).
    apply NoDup_nil_2. }
  split; [exact Hs |]. split; [exact Hnd |]. split.
  - destruct (admin_delete_user_no_orphans example_world
                (example_user 3 "admin@example.com" "Admin")
                (example_user 1 "pkennedy@hey.com" "User") 1
                Hs eq_refl Hnd eq_refl) as [_ Hdelete].
    destruct Hdelete as (w' & Hroute & Hentries & Husers & _); [discriminate |].
    exists w'. split; [exact Hroute |]. split; [exact Hentries | exact Husers].
  - destruct (admin_delete_user_no_orphans example_world
                (example_user 3 "admin@example.com" "Admin")
                (example_user 3 "admin@example.com" "Admin") 3
                Hs eq_refl Hnd eq_refl) as [Hrefused _].
    destruct Hrefused as (w' & Hroute & Hflash & Husers & Hentries & _); [reflexivity |].
    exists w'. repeat (split; [assumption |]). assumption.
Defined.

(** * Further properties of the routes and of the model layer *)

(** ** project/demo/routes.py: how the handlers compose *)

(** X1. After [PUT /journal/<index>] in range, [GET] of the same index
    returns the entry the update returned, with the new text; [GET] of any
    other index in range returns what it returned before the update. *)
Theorem demo_update_then_get (kwargs : NewEntrySchema) (l : list dict)
    (index index' : Z) :
  1 <= index <= len l ->
  1 <= index' <= len l ->
  exists e l',
    demo.demo_update_journal_entry kwargs index l = (Return e, l') /\
    e !! "entry" = Some (VStr (kw_entry kwargs)) /\
    demo.demo_get_journal_entry index l' = (Return e, l') /\
    (index' <> index ->
       demo.demo_get_journal_entry index' l'
       = (fst (demo.demo_get_journal_entry index' l), l')).
Proof.
  intros Hi Hi'.
  destruct (demo_update_in_range kwargs l index Hi) as (e0 & He0 & Hupd).
  eexists _, _. split; [exact Hupd |]. split; [apply lookup_insert_eq |].
  assert (Hlen : forall x, len (<[Z.to_nat (index - 1) := x]> l) = len l)
    by (intros x; unfold len; rewrite length_insert; reflexivity).
  split.
  - destruct (demo_get_in_range (<[Z.to_nat (index - 1) :=
                 <["entry" := VStr (kw_entry kwargs)]> e0]> l) index)
      as (e1 & He1 & Hget); [rewrite Hlen; exact Hi |].
    rewrite list_lookup_insert_eq in He1 by (unfold len in Hi; lia).
    injection He1 as <-. exact Hget.
  - intros Hne.
    destruct (demo_get_in_range (<[Z.to_nat (index - 1) :=
                 <["entry" := VStr (kw_entry kwargs)]> e0]> l) index')
      as (e1 & He1 & Hget); [rewrite Hlen; exact Hi' |].
    destruct (demo_get_in_range l index' Hi') as (e2 & He2 & Hget2).
    rewrite list_lookup_insert_ne in He1 by lia.
    rewrite Hget, Hget2. cbn [fst]. congruence.
Qed.

Lemma demo_update_then_get_witness :
  1 <= 2 <= len demo.demo_entries /\
  1 <= 3 <= len demo.demo_entries /\
  exists e l',
    demo.demo_update_journal_entry {| kw_entry := "Had tea" |} 2 demo.demo_entries
      = (Return e, l') /\
    e !! "entry" = Some (VStr "Had tea") /\
    demo.demo_get_journal_entry 2 l' = (Return e, l') /\
    demo.demo_get_journal_entry 3 l'
      = (fst (demo.demo_get_journal_entry 3 demo.demo_entries), l').
Proof.
  assert (H2 : 1 <= 2 <= len demo.demo_entries) by (vm_compute; split; discriminate).
  assert (H3 : 1 <= 3 <= len demo.demo_entries) by (vm_compute; split; discriminate).
  split; [exact H2 |]. split; [exact H3 |].
  destruct (demo_update_then_get {| kw_entry := "Had tea" |} demo.demo_entries 2 3 H2 H3)
    as (e & l' & Hupd & Htext & Hsame & Hother).
  exists e, l'. repeat (split; [assumption |]). apply Hother. discriminate.
Defined.

(** The state a handler of the demo leaves, whatever its arguments: the
    list itself, or the list with the text of one entry replaced. *)
Lemma demo_update_state (kwargs : NewEntrySchema) (l : list dict) (index : Z) :
  snd (demo.demo_update_journal_entry kwargs index l) = l \/
  exists k e, l !! k = Some e /\
    snd (demo.demo_update_journal_entry kwargs index l)
    = <[k := <["entry" := VStr (kw_entry kwargs)]> e]> l.
Proof.
  unfold demo.demo_update_journal_entry. run_monad.
  destruct ((index =? 0) || (len l <? index)); cbn beta iota; [left; reflexivity |].
  unfold py_getitem.
  destruct (py_index (length l) (index - 1)) as [k |] eqn:Hk; [| left; reflexivity].
  destruct (l !! k) as [e |] eqn:He; [| left; reflexivity].
  right. exists k, e. split; [exact He | reflexivity].
Qed.

(** Replacing the text of the entry at one position leaves every other key
    of that entry as it was. *)
Lemma insert_text_keeps_keys (l : list dict) (k : nat) (e : dict) (text : pyval)
    (i : nat) (key : string) :
  l !! k = Some e ->
  key <> "entry" ->
  (<[k := <["entry" := text]> e]> l !! i) ≫= (.!! key) = (l !! i) ≫= (.!! key).
Proof.
  intros He Hkey.
  destruct (decide (i = k)) as [-> | Hik].
  - rewrite list_lookup_insert_eq by (apply lookup_lt_Some in He; exact He).
    rewrite He. cbn. apply lookup_insert_ne. congruence.
  - rewrite list_lookup_insert_ne by congruence. reflexivity.
Qed.

(** X2. Whatever the requests, the demonstration data keeps its shape: the
    listing, creation, retrieval and deletion handlers leave the list as it
    is, and an update changes nothing but the value under key ["entry"] of
    one entry: the number of entries stays, in every entry the id, the
    owner and both timestamps stay what they were, and every entry but the
    one at a single position [k] stays what it was, text included.  For an
    index between 1 and the number of entries that position is the one of
    the index.  This holds for every index, valid or not. *)
Theorem demo_only_text_changes (l : list dict) (index : Z)
    (utcnow1 utcnow2 : datetime.t) (kwargs : NewEntrySchema) :
  demo.demo_journal l = (Return l, l) /\
  snd (demo.demo_add_journal_entry utcnow1 utcnow2 kwargs l) = l /\
  snd (demo.demo_get_journal_entry index l) = l /\
  snd (demo.demo_delete_journal_entry index l) = l /\
  length (snd (demo.demo_update_journal_entry kwargs index l)) = length l /\
  (forall (i : nat) (key : string),
     key <> "entry" ->
     (snd (demo.demo_update_journal_entry kwargs index l) !! i) ≫= (.!! key)
     = (l !! i) ≫= (.!! key)) /\
  exists k : nat,
    (forall i : nat,
       i <> k -> snd (demo.demo_update_journal_entry kwargs index l) !! i = l !! i) /\
    (1 <= index <= len l -> k = Z.to_nat (index - 1)).
Proof.
  split; [reflexivity |]. split; [reflexivity |].
  split.
  { unfold demo.demo_get_journal_entry. run_monad.
    destruct ((index =? 0) || (len l <? index)); cbn beta iota; [reflexivity |].
    destruct (py_getitem l (index - 1)); reflexivity. }
  split.
  { unfold demo.demo_delete_journal_entry. run_monad.
    destruct ((index =? 0) || (len l <? index)); reflexivity. }
  destruct (decide (1 <= index <= len l)) as [Hin | Hout].
  - destruct (demo_update_in_range kwargs l index Hin) as (e & He & ->). cbn [snd].
    split; [apply length_insert |].
    split; [intros i key Hkey; apply insert_text_keeps_keys; assumption |].
    exists (Z.to_nat (index - 1)). split; [| reflexivity].
    intros i Hi. apply list_lookup_insert_ne. congruence.
  - destruct (demo_update_state kwargs l index) as [-> | (k & e & He & ->)].
    + split; [reflexivity |]. split; [reflexivity |].
      exists 0%nat. split; [reflexivity | contradiction].
    + split; [apply length_insert |].
      split; [intros i key Hkey; apply insert_text_keeps_keys; assumption |].
      exists k. split; [| contradiction].
      intros i Hi. apply list_lookup_insert_ne. congruence.
Qed.

(** X3. Updates of the demo compose as assignments do: of two updates of
    the same entry the second one wins, and updates of two different
    entries can be made in either order. *)
Theorem demo_updates_compose (a b : NewEntrySchema) (l : list dict) (i j : Z) :
  1 <= i <= len l ->
  1 <= j <= len l ->
  demo.demo_update_journal_entry b i (snd (demo.demo_update_journal_entry a i l))
  = demo.demo_update_journal_entry b i l /\
  (i <> j ->
   snd (demo.demo_update_journal_entry b j (snd (demo.demo_update_journal_entry a i l)))
   = snd (demo.demo_update_journal_entry a i (snd (demo.demo_update_journal_entry b j l)))).
Proof.
  intros Hi Hj.
  assert (Hlen : forall k x, len (<[k := x]> l) = len l)
    by (intros k x; unfold len; rewrite length_insert; reflexivity).
  destruct (demo_update_in_range a l i Hi) as (ei & Hei & Hai).
  destruct (demo_update_in_range b l i Hi) as (ei' & Hei' & Hbi).
  destruct (demo_update_in_range b l j Hj) as (ej & Hej & Hbj).
  assert (ei' = ei) by congruence. subst ei'.
  split.
  - rewrite Hai, Hbi. cbn [snd].
    destruct (demo_update_in_range b (<[Z.to_nat (i - 1) :=
                 <["entry" := VStr (kw_entry a)]> ei]> l) i)
      as (e & He & ->); [rewrite Hlen; exact Hi |].
    rewrite list_lookup_insert_eq in He by (unfold len in Hi; lia).
    injection He as <-.
    rewrite insert_insert_eq, list_insert_insert_eq. reflexivity.
  - intros Hne. rewrite Hai, Hbj. cbn [snd].
    destruct (demo_update_in_range b (<[Z.to_nat (i - 1) :=
                 <["entry" := VStr (kw_entry a)]> ei]> l) j)
      as (e & He & ->); [rewrite Hlen; exact Hj |].
    destruct (demo_update_in_range a (<[Z.to_nat (j - 1) :=
                 <["entry" := VStr (kw_entry b)]> ej]> l) i)
      as (e' & He' & ->); [rewrite Hlen; exact Hi |].
    rewrite list_lookup_insert_ne in He by lia.
    rewrite list_lookup_insert_ne in He' by lia.
    assert (e = ej) by congruence. assert (e' = ei) by congruence. subst e e'.
    cbn [snd]. apply list_insert_insert_ne. lia.
Qed.

Lemma demo_updates_compose_witness :
  demo.demo_update_journal_entry {| kw_entry := "Had tea" |} 1
    (snd (demo.demo_update_journal_entry {| kw_entry := "Had coffee" |} 1
            demo.demo_entries))
  = demo.demo_update_journal_entry {| kw_entry := "Had tea" |} 1 demo.demo_entries /\
  snd (demo.demo_update_journal_entry {| kw_entry := "Had tea" |} 5
         (snd (demo.demo_update_journal_entry {| kw_entry := "Had coffee" |} 1
                 demo.demo_entries)))
  = snd (demo.demo_update_journal_entry {| kw_entry := "Had coffee" |} 1
           (snd (demo.demo_update_journal_entry {| kw_entry := "Had tea" |} 5
                   demo.demo_entries))).
Proof.
  assert (H1 : 1 <= 1 <= len demo.demo_entries) by (vm_compute; split; discriminate).
  assert (H5 : 1 <= 5 <= len demo.demo_entries) by (vm_compute; split; discriminate).
  split.
  - apply (demo_updates_compose {| kw_entry := "Had coffee" |} {| kw_entry := "Had tea" |}
             demo.demo_entries 1 1 H1 H1).
  - apply (demo_updates_compose {| kw_entry := "Had coffee" |} {| kw_entry := "Had tea" |}
             demo.demo_entries 1 5 H1 H5). discriminate.
Defined.

(** ** project/models.py: what a bearer token gives access to *)

(** After the update of [u] into [u'], a [.first()] query that answered
    [u] and that [u'] still matches answers [u']. *)
Lemma first_after_update (P : User.t -> Prop) `{!forall r, Decision (P r)}
    (l : list User.t) (u u' : User.t) :
  head (filter P l) = Some u ->
  User.id u' = User.id u ->
  P u' ->
  head (filter P (database.update_row u' <$> l)) = Some u'.
Proof.
  intros Hhead Hid HP.
  induction l as [| r l IH]; [discriminate |].
  rewrite fmap_cons, filter_cons. rewrite filter_cons in Hhead.
  destruct (decide (User.id r = User.id u')) as [Hrid | Hrid].
  - rewrite (update_row_same u' r Hrid).
    rewrite decide_True by exact HP. reflexivity.
  - rewrite (update_row_other u' r Hrid).
    destruct (decide (P r)) as [Hr | Hr].
    + injection Hhead as ->. congruence.
    + apply IH. exact Hhead.
Qed.

(** What [get_auth_token] leaves: the rows of the user rewritten. *)
Lemma get_auth_token_run (w : World) (u : User.t) (tok : string) (t0 : datetime.t) :
  session w = [] ->
  is_Some (User.id u) ->
  users_api.get_auth_token tok t0 u w
  = (Return tok,
     with_tables
       (database.update_row (fst (User.generate_auth_token tok t0 u)) <$> users w)
       (entries w) w).
Proof.
  intros Hs Hid. unfold users_api.get_auth_token.
  change (User.generate_auth_token tok t0 u)
    with (fst (User.generate_auth_token tok t0 u), tok) at 1.
  cbn beta iota.
  rewrite run_bind, session_add_persistent by exact Hid. cbn beta iota.
  rewrite run_bind, session_commit_update by exact Hs. reflexivity.
Qed.

(** X4. [verify_auth_token] is sound: a user it returns is a row of the
    table that holds exactly the token presented and whose expiration is
    later than the current time; and for a token that no row holds it
    returns [None]. *)
Theorem verify_auth_token_sound (l : list User.t) (t : datetime.t) (tok : string) :
  (forall u, User.verify_auth_token l t tok = Return (Some u) ->
     u ∈ l /\ User.auth_token u = Some tok /\
     exists expiration, User.auth_token_expiration u = Some expiration /\ t < expiration) /\
  ((forall r, r ∈ l -> User.auth_token r <> Some tok) ->
     User.verify_auth_token l t tok = Return None).
Proof.
  split.
  - intros u Hv. apply verify_auth_token_Some in Hv as (Hhead & Htok & Hexp).
    destruct (head_filter_Some (fun r => User.auth_token r = Some tok) _ _ Hhead)
      as [Hin _].
    split; [exact Hin |]. split; [exact Htok | exact Hexp].
  - intros Hnone. unfold User.verify_auth_token.
    rewrite (head_filter_none (fun r => User.auth_token r = Some tok) l Hnone).
    reflexivity.
Qed.

Lemma tokens_dated_update (l : list User.t) (u' : User.t) :
  tokens_dated l ->
  (is_Some (User.auth_token u') -> is_Some (User.auth_token_expiration u')) ->
  tokens_dated (database.update_row u' <$> l).
Proof.
  intros Hl Hu' r Hr. apply list_elem_of_fmap in Hr as (r0 & -> & Hr0).
  unfold database.update_row. case_bool_decide; [exact Hu' | apply Hl, Hr0].
Qed.

(** X5. In a table where every row that holds a token holds an expiration,
    [verify_auth_token] never raises: the comparison with the clock always
    finds a date.  Issuing a token and revoking one keep the table in that
    state, since the first sets both columns and the second sets the
    expiration only. *)
Theorem verify_auth_token_never_raises (w : World) (u : User.t) (tok : string)
    (t0 : datetime.t) :
  tokens_dated (users w) ->
  session w = [] ->
  is_Some (User.id u) ->
  (forall t tok', exists o, User.verify_auth_token (users w) t tok' = Return o) /\
  tokens_dated (users (snd (users_api.get_auth_token tok t0 u w))) /\
  tokens_dated
    (users (snd ((database.session_add (User.revoke_auth_token t0 u)
                    ≫= fun _ => database.session_commit) w))).
Proof.
  intros Hdated Hs Hid. split; [| split].
  - intros t tok'. unfold User.verify_auth_token.
    destruct (head (filter _ (users w))) as [r |] eqn:Hhead; [| eexists; reflexivity].
    destruct (head_filter_Some (fun r => User.auth_token r = Some tok') _ _ Hhead)
      as [Hin Htok].
    destruct (Hdated r Hin) as [expiration Hexp]; [rewrite Htok; eexists; reflexivity |].
    rewrite Hexp. destruct (t <? expiration); eexists; reflexivity.
  - rewrite (get_auth_token_run w u tok t0 Hs Hid). cbn [snd users with_tables].
    apply tokens_dated_update; [exact Hdated |]. intros _. eexists. reflexivity.
  - rewrite run_bind, session_add_persistent by exact Hid. cbn beta iota.
    rewrite session_commit_update by exact Hs. cbn [snd users with_tables].
    apply tokens_dated_update; [exact Hdated |]. intros _. eexists. reflexivity.
Qed.

Lemma verify_auth_token_never_raises_witness :
  tokens_dated (users example_world_with_token) /\
  (forall t tok', exists o,
     User.verify_auth_token (users example_world_with_token) t tok' = Return o) /\
  tokens_dated
    (users (snd (users_api.get_auth_token "kP3vXw" 5000 example_user_with_token
                   example_world_with_token))).
Proof.
  assert (Hdated : tokens_dated (users example_world_with_token)).
  { intros r Hr Htok. cbn in Hr.
    repeat (apply elem_of_cons in Hr as [-> | Hr];
            [first [eexists; reflexivity | destruct Htok; discriminate] |]).
    inversion Hr. }
  destruct (verify_auth_token_never_raises example_world_with_token
              example_user_with_token "kP3vXw" 5000 Hdated eq_refl
              (ex_intro _ 1 eq_refl)) as (Hverify & Hissue & _).
  split; [exact Hdated |]. split; [exact Hverify | exact Hissue].
Defined.

(** X6. A user holds one token at a time: once [get_auth_token] has issued
    a new token, the token the user held before is refused at every time,
    even inside the sixty minutes it was issued for. *)
Theorem new_token_supersedes_old (w : World) (u : User.t) (old new : string)
    (t0 : datetime.t) :
  session w = [] ->
  is_Some (User.id u) ->
  old <> new ->
  (forall r, r ∈ users w -> User.auth_token r = Some old -> User.id r = User.id u) ->
  forall t,
    User.verify_auth_token (users (snd (users_api.get_auth_token new t0 u w))) t old
    = Return None.
Proof.
  intros Hs Hid Hne Honly t.
  rewrite (get_auth_token_run w u new t0 Hs Hid). cbn [snd users with_tables].
  unfold User.verify_auth_token.
  rewrite (head_filter_none (fun r => User.auth_token r = Some old)); [reflexivity |].
  intros r Hr Htok. apply list_elem_of_fmap in Hr as (r0 & -> & Hr0).
  unfold database.update_row in Htok. case_bool_decide as Hrid.
  - cbn in Htok. congruence.
  - apply Hrid. apply Honly; assumption.
Qed.

Lemma new_token_supersedes_old_witness :
  User.verify_auth_token (users example_world_with_token) 2000 example_token
    = Return (Some example_user_with_token) /\
  User.verify_auth_token
    (users (snd (users_api.get_auth_token "kP3vXw" 1500 example_user_with_token
                   example_world_with_token))) 2000 example_token
    = Return None.
Proof.
  split; [reflexivity |].
  apply (new_token_supersedes_old example_world_with_token example_user_with_token
           example_token "kP3vXw" 1500).
  - reflexivity.
  - eexists. reflexivity.
  - discriminate.
  - intros r Hr Htok. cbn in Hr.
    repeat (apply elem_of_cons in Hr as [-> | Hr];
            [first [reflexivity | discriminate Htok] |]).
    inversion Hr.
Defined.

(** ** project/users_api/routes.py: registration, continued *)

(** The key given to a new row is above every key in use. *)
Lemma next_id_above (ids : list (option Z)) (x : Z) :
  Some x ∈ ids -> x < database.next_id ids.
Proof.
  unfold database.next_id. induction ids as [| i ids IH]; intros Hin.
  - inversion Hin.
  - apply elem_of_cons in Hin as [<- | Hin]; cbn.
    + lia.
    + specialize (IH Hin). lia.
Qed.

Lemma next_id_fresh (ids : list (option Z)) : Some (database.next_id ids) ∉ ids.
Proof. intros Hin. apply next_id_above in Hin. lia. Qed.

(** The refusal of a registration, as a computation. *)
Lemma register_refused_run `{Collaborators} (w : World)
    (utcnow1 utcnow2 : datetime.t) (salt : string) (utcnow3 : datetime.t)
    (kwargs : NewUserSchema) :
  session w = [] ->
  kw_email kwargs ∈ User.email <$> users w ->
  users_api.register utcnow1 utcnow2 salt utcnow3 kwargs w
  = (Raise (HTTPException 400), w).
Proof.
  intros Hs Hdup.
  unfold users_api.register, database.session_add, database.session_commit,
    database.session_rollback.
  run_monad. rewrite Hs. cbn.
  rewrite bool_decide_eq_true_2 by exact Hdup. cbn.
  f_equal. apply (with_session_restore w _ Hs).
Qed.

(** X7. A registration with an email that no user has answers 201 with the
    inserted user: its primary key is used by no row present before, it is
    unconfirmed, holds no token and has type "User"; and exactly one
    message is handed out, addressed to that email alone, whose link
    carries the email signed under the confirmation salt. *)
Theorem register_new_user_row `{Collaborators} (w : World)
    (utcnow1 utcnow2 : datetime.t) (salt : string) (utcnow3 : datetime.t)
    (kwargs : NewUserSchema) :
  session w = [] ->
  kw_email kwargs ∉ User.email <$> users w ->
  exists new_user w' msg,
    users_api.register utcnow1 utcnow2 salt utcnow3 kwargs w
      = (Return (new_user, 201), w') /\
    users w' = users w ++ [new_user] /\
    User.email new_user = kw_email kwargs /\
    (User.id new_user ∉ User.id <$> users w) /\
    is_Some (User.id new_user) /\
    User.email_confirmed new_user = false /\
    User.auth_token new_user = None /\
    User.user_type new_user = "User" /\
    outbox w' = outbox w ++ [msg] /\
    recipients msg = [kw_email kwargs] /\
    context (html msg)
      = [("confirm_url",
          CUrl (url_for_token "users_api.confirm_email"
                  (serializer_dumps SECRET_KEY (kw_email kwargs)
                     "email-confirmation-salt" utcnow3)))].
Proof.
  intros Hs Hfresh.
  destruct (register_fresh_email w utcnow1 utcnow2 salt utcnow3 kwargs Hs Hfresh)
    as (new_user & w' & Hrun & -> & Husers & _ & _ & Hout).
  eexists _, w', _. split; [exact Hrun |]. split; [exact Husers |].
  split; [reflexivity |]. split; [apply next_id_fresh |].
  split; [eexists; reflexivity |].
  repeat (split; [reflexivity |]).
  split; [exact Hout |]. split; reflexivity.
Qed.

Lemma register_new_user_row_witness :
  session example_world = [] /\
  ("new@example.com" ∉ User.email <$> users example_world) /\
  exists new_user w',
    users_api.register 10 11 "s2" 12
      {| kw_email := "new@example.com"; kw_password_plaintext := "Secret123" |}
      example_world
      = (Return (new_user, 201), w') /\
    users w' = users example_world ++ [new_user] /\
    User.id new_user = Some 4 /\
    User.email_confirmed new_user = false.
Proof.
  assert (Hfresh : "new@example.com" ∉ User.email <$> users example_world).
  { cbn. intros Hin. repeat (apply elem_of_cons in Hin as [Heq | Hin]; [discriminate |]).
    inversion Hin. }
  split; [reflexivity |]. split; [exact Hfresh |].
  destruct (register_new_user_row example_world 10 11 "s2" 12
              {| kw_email := "new@example.com"; kw_password_plaintext := "Secret123" |}
              eq_refl Hfresh)
    as (new_user & w' & msg & Hrun & Husers & _ & _ & _ & Hconf & _).
  exists new_user, w'. split; [exact Hrun |]. split; [exact Husers |].
  split; [| exact Hconf].
  cbn in Hrun. injection Hrun as <- _. reflexivity.
Defined.

(** X8. Registration keeps table [users] well formed, whatever the
    request: if the emails are distinct and the primary keys are set and
    distinct before it, they are so after it, whether the request was
    accepted or refused. *)
Theorem register_keeps_users_unique `{Collaborators} (w : World)
    (utcnow1 utcnow2 : datetime.t) (salt : string) (utcnow3 : datetime.t)
    (kwargs : NewUserSchema) :
  session w = [] ->
  NoDup (User.email <$> users w) ->
  NoDup (User.id <$> users w) ->
  keys_set (users w) ->
  NoDup (User.email <$>
           users (snd (users_api.register utcnow1 utcnow2 salt utcnow3 kwargs w))) /\
  NoDup (User.id <$>
           users (snd (users_api.register utcnow1 utcnow2 salt utcnow3 kwargs w))) /\
  keys_set (users (snd (users_api.register utcnow1 utcnow2 salt utcnow3 kwargs w))).
Proof.
  intros Hs Hemails Hids Hkeys.
  destruct (decide (kw_email kwargs ∈ User.email <$> users w)) as [Hdup | Hfresh].
  - rewrite (register_refused_run w _ _ _ _ _ Hs Hdup). cbn [snd]. auto.
  - destruct (register_fresh_email w utcnow1 utcnow2 salt utcnow3 kwargs Hs Hfresh)
      as (new_user & w' & Hrun & -> & Husers & _).
    rewrite Hrun. cbn [snd]. rewrite Husers, !fmap_app. cbn [fmap list_fmap].
    split; [| split].
    + apply NoDup_app. split; [exact Hemails |]. split.
      * intros e He Hin. apply list_elem_of_singleton in Hin. subst e.
        apply Hfresh. exact He.
      * apply NoDup_singleton.
    + apply NoDup_app. split; [exact Hids |]. split.
      * intros i Hi Hin. apply list_elem_of_singleton in Hin. subst i.
        apply (next_id_fresh _ Hi).
      * apply NoDup_singleton.
    + intros r Hr. apply elem_of_app in Hr as [Hr | Hr]; [apply Hkeys, Hr |].
      apply list_elem_of_singleton in Hr. subst r. eexists. reflexivity.
Qed.

(** Closes [NoDup] and membership goals on the rows of an example table. *)
Ltac solve_concrete_NoDup :=
  cbn;
  repeat (apply NoDup_cons; split;
          [intros Hin;
           repeat (apply elem_of_cons in Hin as [Heq | Hin]; [discriminate |]);
           inversion Hin |]);
  apply NoDup_nil_2.

Lemma register_keeps_users_unique_witness :
  NoDup (User.email <$> users example_world) /\
  NoDup (User.id <$> users example_world) /\
  keys_set (users example_world) /\
  NoDup (User.email <$>
           users (snd (users_api.register 10 11 "s2" 12
                         {| kw_email := "new@example.com";
                            kw_password_plaintext := "Secret123" |} example_world))) /\
  NoDup (User.id <$>
           users (snd (users_api.register 10 11 "s2" 12
                         {| kw_email := "pkennedy@hey.com";
                            kw_password_plaintext := "Secret123" |} example_world))).
Proof.
  assert (Hemails : NoDup (User.email <$> users example_world)) by solve_concrete_NoDup.
  assert (Hids : NoDup (User.id <$> users example_world)) by solve_concrete_NoDup.
  assert (Hkeys : keys_set (users example_world)).
  { intros r Hr. cbn in Hr.
    repeat (apply elem_of_cons in Hr as [-> | Hr]; [eexists; reflexivity |]).
    inversion Hr. }
  repeat (split; [assumption |]).
  split.
  - apply (register_keeps_users_unique example_world 10 11 "s2" 12
             {| kw_email := "new@example.com"; kw_password_plaintext := "Secret123" |}
             eq_refl Hemails Hids Hkeys).
  - apply (register_keeps_users_unique example_world 10 11 "s2" 12
             {| kw_email := "pkennedy@hey.com"; kw_password_plaintext := "Secret123" |}
             eq_refl Hemails Hids Hkeys).
Defined.

(** ** project/users_api/routes.py: confirmation of the email address *)

(** X9. A confirmation link accepted by the serializer, for a user not yet
    confirmed, marks the user's row confirmed at the time read by
    [datetime.now()] and renders the "confirmed" page; the entries are not
    touched.  The same link followed again, while the serializer still
    accepts it, renders the "already confirmed" page and changes neither
    table: the date of the first confirmation stays. *)
Theorem confirm_email_then_again `{Collaborators} (w : World)
    (utcnow now : datetime.t) (remote_addr token email : string) (u : User.t) :
  session w = [] ->
  serializer_loads SECRET_KEY token "email-confirmation-salt" 3600 utcnow = Return email ->
  head (filter (fun r => User.email r = email) (users w)) = Some u ->
  is_Some (User.id u) ->
  User.email_confirmed u = false ->
  exists w',
    users_api.confirm_email utcnow now remote_addr token w
      = (Return (render_template "users_api/email_confirmed.html" []), w') /\
    users w'
      = database.update_row (User.set_email_confirmed true (Some now) u) <$> users w /\
    entries w' = entries w /\
    forall utcnow' now' remote_addr',
      serializer_loads SECRET_KEY token "email-confirmation-salt" 3600 utcnow'
        = Return email ->
      exists w'',
        users_api.confirm_email utcnow' now' remote_addr' token w'
          = (Return (render_template "users_api/email_confirmation_duplicate.html" []),
             w'') /\
        users w'' = users w' /\
        entries w'' = entries w'.
Proof.
  intros Hs Hloads Hfind Hid Hunconfirmed.
  set (u' := User.set_email_confirmed true (Some now) u).
  destruct (head_filter_Some (fun r => User.email r = email) _ _ Hfind) as [_ Hemail].
  eexists. split.
  { unfold users_api.confirm_email, database.User_query_filter_by_email, getattr_of,
      logger_info.
    run_monad. rewrite Hloads. cbn beta iota. rewrite Hfind. cbn beta iota.
    rewrite Hunconfirmed. fold u'.
    rewrite session_add_persistent by exact Hid. cbn beta iota.
    rewrite session_commit_update by exact Hs. cbn beta iota. reflexivity. }
  cbn [users entries with_log with_tables].
  split; [reflexivity |]. split; [reflexivity |].
  intros utcnow' now' remote_addr' Hloads'.
  eexists. split.
  { unfold users_api.confirm_email, database.User_query_filter_by_email, getattr_of,
      logger_info.
    run_monad. rewrite Hloads'. cbn beta iota. cbn [users with_log with_tables].
    rewrite (first_after_update (fun r => User.email r = email) _ u u' Hfind eq_refl Hemail).
    cbn beta iota. cbn [User.email_confirmed u' User.set_email_confirmed].
    reflexivity. }
  split; reflexivity.
Qed.

Lemma confirm_email_then_again_witness :
  exists w' w'',
    users_api.confirm_email 100 7300000000 "203.0.113.7"
      "email-confirmation-salt:pkennedy@hey.com" example_world
      = (Return (render_template "users_api/email_confirmed.html" []), w') /\
    users_api.confirm_email 200 7400000000 "203.0.113.7"
      "email-confirmation-salt:pkennedy@hey.com" w'
      = (Return (render_template "users_api/email_confirmation_duplicate.html" []), w'') /\
    users w'' = users w' /\
    head (users w'')
      = Some (User.set_email_confirmed true (Some 7300000000)
                (example_user 1 "pkennedy@hey.com" "User")).
Proof.
  assert (Hloads : forall utcnow,
            serializer_loads SECRET_KEY "email-confirmation-salt:pkennedy@hey.com"
              "email-confirmation-salt" 3600 utcnow = Return "pkennedy@hey.com")
    by reflexivity.
  assert (Hfind : head (filter (fun r => User.email r = "pkennedy@hey.com")
                          (users example_world))
                  = Some (example_user 1 "pkennedy@hey.com" "User")) by reflexivity.
  destruct (confirm_email_then_again example_world 100 7300000000 "203.0.113.7"
              "email-confirmation-salt:pkennedy@hey.com" "pkennedy@hey.com"
              (example_user 1 "pkennedy@hey.com" "User")
              eq_refl (Hloads 100) Hfind (ex_intro _ 1 eq_refl) eq_refl)
    as (w' & Hfirst & Husers & _ & Hagain).
  destruct (Hagain 200 7400000000 "203.0.113.7" (Hloads 200))
    as (w'' & Hsecond & Hsame & _).
  exists w', w''. split; [exact Hfirst |]. split; [exact Hsecond |].
  split; [exact Hsame |].
  rewrite Hsame, Husers. reflexivity.
Defined.

(** X10. [resend_email_confirmation] refuses a user whose email is
    confirmed with 400, sending nothing and changing nothing.  For an
    unconfirmed user it hands out one confirmation message for the user's
    own email and records the time of sending on the user's row; the user
    stays unconfirmed and keeps token and password. *)
Theorem resend_email_confirmation_outcomes `{Collaborators} (w : World)
    (utcnow1 utcnow2 : datetime.t) (u : User.t) :
  session w = [] ->
  is_Some (User.id u) ->
  (User.email_confirmed u = true ->
     users_api.resend_email_confirmation utcnow1 utcnow2 u w
     = (Raise (HTTPException 400), w)) /\
  (User.email_confirmed u = false ->
     exists u' w',
       users_api.resend_email_confirmation utcnow1 utcnow2 u w = (Return u', w') /\
       users w' = database.update_row u' <$> users w /\
       entries w' = entries w /\
       outbox w'
         = outbox w ++ [users_api.generate_confirmation_email utcnow1 (User.email u)] /\
       User.email_confirmation_sent_on u' = utcnow2 /\
       User.email_confirmed u' = false /\
       User.auth_token u' = User.auth_token u /\
       User.auth_token_expiration u' = User.auth_token_expiration u /\
       User.password_hashed u' = User.password_hashed u).
Proof.
  intros Hs Hid. split; intros Hconfirmed.
  - unfold users_api.resend_email_confirmation. run_monad.
    rewrite Hconfirmed. reflexivity.
  - exists (User.confirmation_email_link_sent utcnow2 u). eexists. split.
    { unfold users_api.resend_email_confirmation, start_email_thread. run_monad.
      rewrite Hconfirmed. cbn beta iota.
      rewrite session_add_persistent by exact Hid. cbn beta iota.
      rewrite session_commit_update by exact Hs. reflexivity. }
    cbn. rewrite Hconfirmed. repeat split.
Qed.

Lemma resend_email_confirmation_outcomes_witness :
  users_api.resend_email_confirmation 100 101
    (User.set_email_confirmed true (Some 50) (example_user 1 "pkennedy@hey.com" "User"))
    example_world
  = (Raise (HTTPException 400), example_world) /\
  exists u' w',
    users_api.resend_email_confirmation 100 101
      (example_user 1 "pkennedy@hey.com" "User") example_world = (Return u', w') /\
    User.email_confirmation_sent_on u' = 101 /\
    recipients <$> outbox w' = [["pkennedy@hey.com"]].
Proof.
  split.
  - apply (resend_email_confirmation_outcomes example_world 100 101
             (User.set_email_confirmed true (Some 50)
                (example_user 1 "pkennedy@hey.com" "User"))
             eq_refl (ex_intro _ 1 eq_refl)).
    reflexivity.
  - destruct (resend_email_confirmation_outcomes example_world 100 101
                (example_user 1 "pkennedy@hey.com" "User")
                eq_refl (ex_intro _ 1 eq_refl)) as [_ Hsend].
    destruct (Hsend eq_refl) as (u' & w' & Hrun & _ & _ & Hout & Hsent & _).
    exists u', w'. split; [exact Hrun |]. split; [exact Hsent |].
    rewrite Hout. reflexivity.
Defined.

(** ** project/users_api/routes.py: password reset *)


(** X12. A password reset through an accepted link, with a valid form, for
    an existing user, replaces the stored hash by the hash of the submitted
    password and renders the "updated" page.  It does not revoke the
    bearer token: a token that [verify_auth_token] accepted before the
    reset is accepted after it, for the same user with the new hash.
    Without a valid submitted form the view renders the form and writes
    nothing. *)
Theorem password_reset_keeps_token `{Collaborators} (w : World) (utcnow : datetime.t)
    (salt : string) (form : PasswordForm) (token email : string) (u : User.t) :
  session w = [] ->
  serializer_loads SECRET_KEY token "password-reset-salt" 3600 utcnow = Return email ->
  head (filter (fun r => User.email r = email) (users w)) = Some u ->
  is_Some (User.id u) ->
  (validate_on_submit form = true ->
     exists w',
       users_api.process_password_reset_token utcnow salt form token w
         = (Return (render_template "users_api/password_updated.html" []), w') /\
       users w'
         = database.update_row (User.set_password salt u (password_data form)) <$> users w /\
       User.password_hashed (User.set_password salt u (password_data form))
         = generate_password_hash (password_data form) salt /\
       forall t tok,
         User.verify_auth_token (users w) t tok = Return (Some u) ->
         User.verify_auth_token (users w') t tok
         = Return (Some (User.set_password salt u (password_data form)))) /\
  (validate_on_submit form = false ->
     users_api.process_password_reset_token utcnow salt form token w
     = (Return (render_template "users_api/reset_password_with_token.html"
                  [("form", CForm form)]), w)).
Proof.
  intros Hs Hloads Hfind Hid. split; intros Hvalid.
  - set (u' := User.set_password salt u (password_data form)).
    eexists. split.
    { unfold users_api.process_password_reset_token,
        database.User_query_filter_by_email.
      run_monad. rewrite Hloads. cbn beta iota. rewrite Hvalid, Hfind.
      cbn beta iota. fold u'.
      rewrite session_add_persistent by exact Hid. cbn beta iota.
      rewrite session_commit_update by exact Hs. reflexivity. }
    cbn [users with_tables]. split; [reflexivity |]. split; [reflexivity |].
    intros t tok Hv.
    apply verify_auth_token_Some in Hv as (Hhead & Htok & expiration & Hexp & Hlt).
    rewrite (verify_auth_token_found _ u' tok expiration t).
    + destruct (Z.ltb_spec t expiration); [reflexivity | lia].
    + apply (first_by_token_after_change _ u); [exact Hhead | reflexivity | exact Htok].
    + exact Hexp.
  - unfold users_api.process_password_reset_token. run_monad.
    rewrite Hloads. cbn beta iota. rewrite Hvalid. reflexivity.
Qed.

Lemma password_reset_keeps_token_witness :
  User.verify_auth_token (users example_world_with_token) 2000 example_token
    = Return (Some example_user_with_token) /\
  exists w',
    users_api.process_password_reset_token 1900 "s2"
      {| validate_on_submit := true; password_data := "NewPassword1" |}
      "password-reset-salt:pkennedy@hey.com" example_world_with_token
      = (Return (render_template "users_api/password_updated.html" []), w') /\
    User.verify_auth_token (users w') 2000 example_token
      = Return (Some (User.set_password "s2" example_user_with_token "NewPassword1")).
Proof.
  assert (Hvalid : User.verify_auth_token (users example_world_with_token) 2000
                     example_token = Return (Some example_user_with_token))
    by reflexivity.
  assert (Hloads : serializer_loads SECRET_KEY "password-reset-salt:pkennedy@hey.com"
                     "password-reset-salt" 3600 1900 = Return "pkennedy@hey.com")
    by reflexivity.
  assert (Hfind : head (filter (fun r => User.email r = "pkennedy@hey.com")
                          (users example_world_with_token))
                  = Some example_user_with_token) by reflexivity.
  destruct (password_reset_keeps_token example_world_with_token 1900 "s2"
              {| validate_on_submit := true; password_data := "NewPassword1" |}
              "password-reset-salt:pkennedy@hey.com" "pkennedy@hey.com"
              example_user_with_token eq_refl Hloads Hfind (ex_intro _ 1 eq_refl))
    as [Hreset _].
  destruct (Hreset eq_refl) as (w' & Hrun & _ & _ & Hkept).
  split; [exact Hvalid |].
  exists w'. split; [exact Hrun |]. apply Hkept. exact Hvalid.
Defined.

(** ** project/users_api/routes.py: change of password *)

(** X13. [change_password], called with a token that is accepted.  With
    the right old password it stores the hash of the new password and
    revokes the token: the token the request came with is refused from the
    time of the change on, so the user has to ask for a new one.  With a
    wrong old password it aborts with 400 and changes nothing: the hash
    stays and the token stays accepted. *)
Theorem change_password_outcomes `{Collaborators} (w : World) (u : User.t)
    (tok salt : string) (t0 t1 : datetime.t) (data : ChangePasswordSchema) :
  session w = [] ->
  is_Some (User.id u) ->
  User.verify_auth_token (users w) t0 tok = Return (Some u) ->
  (User.is_password_correct u (kw_old_password_plaintext data) = true ->
     exists u' w',
       users_api.change_password salt t1 u data w = (Return u', w') /\
       User.password_hashed u'
         = generate_password_hash (kw_new_password_plaintext data) salt /\
       User.auth_token u' = Some tok /\
       forall t, t1 <= t -> User.verify_auth_token (users w') t tok = Return None) /\
  (User.is_password_correct u (kw_old_password_plaintext data) = false ->
     users_api.change_password salt t1 u data w = (Raise (HTTPException 400), w) /\
     User.verify_auth_token
       (users (snd (users_api.change_password salt t1 u data w))) t0 tok
     = Return (Some u)).
Proof.
  intros Hs Hid Hvalid. split; intros Hpw.
  - destruct (change_password_revokes_token w u tok salt t0 t1 data Hs Hid Hvalid Hpw)
      as (u' & w' & Hrun & Htok & Hhash & Hrejected).
    exists u', w'. auto.
  - assert (Hrun : users_api.change_password salt t1 u data w
                   = (Raise (HTTPException 400), w)).
    { unfold users_api.change_password. run_monad. rewrite Hpw. reflexivity. }
    split; [exact Hrun |]. rewrite Hrun. exact Hvalid.
Qed.

Lemma change_password_outcomes_witness :
  User.verify_auth_token (users example_world_with_token) 2000 example_token
    = Return (Some example_user_with_token) /\
  (exists u' w',
     users_api.change_password "s2" 3000 example_user_with_token
       {| kw_old_password_plaintext := "password";
          kw_new_password_plaintext := "Other123" |}
       example_world_with_token = (Return u', w') /\
     User.password_hashed u' = "s2$Other123" /\
     User.verify_auth_token (users w') 3000 example_token = Return None) /\
  users_api.change_password "s2" 3000 example_user_with_token
    {| kw_old_password_plaintext := "guess"; kw_new_password_plaintext := "Other123" |}
    example_world_with_token
  = (Raise (HTTPException 400), example_world_with_token).
Proof.
  assert (Hvalid : User.verify_auth_token (users example_world_with_token) 2000
                     example_token = Return (Some example_user_with_token))
    by reflexivity.
  split; [exact Hvalid |]. split.
  - destruct (change_password_outcomes example_world_with_token
                example_user_with_token example_token "s2" 2000 3000
                {| kw_old_password_plaintext := "password";
                   kw_new_password_plaintext := "Other123" |}
                eq_refl (ex_intro _ 1 eq_refl) Hvalid) as [Hright _].
    destruct (Hright eq_refl) as (u' & w' & Hrun & Hhash & _ & Hrejected).
    exists u', w'. split; [exact Hrun |]. split; [exact Hhash |].
    apply Hrejected. lia.
  - apply (change_password_outcomes example_world_with_token
             example_user_with_token example_token "s2" 2000 3000
             {| kw_old_password_plaintext := "guess";
                kw_new_password_plaintext := "Other123" |}
             eq_refl (ex_intro _ 1 eq_refl) Hvalid).
    reflexivity.
Defined.

(** ** project/admin/routes.py: who may use the console *)

Lemma admin_decorators_refuse (cu : User.t) (func : view response) (w : World) :
  User.user_type cu <> "Admin" ->
  admin.login_required (Some cu) (admin.admin_required (Some cu) func) w
  = (Raise (HTTPException 403), w).
Proof.
  intros Hother. unfold admin.login_required, admin.admin_required, getattr_of.
  run_monad. rewrite bool_decide_eq_true_2 by exact Hother. reflexivity.
Qed.

Lemma admin_decorators_anonymous (func : view response) (w : World) :
  admin.login_required None (admin.admin_required None func) w
  = (Return (Redirect (url_for "admin.admin_login")),
     with_flashes (flashes w ++ [("Please log in to access this page.", "message")]) w).
Proof. reflexivity. Qed.

(** X14. The views of the console that act on a user (delete, revoke the
    token, confirm and unconfirm the email, change the password) do
    nothing for a logged-in user whose type is not "Admin": each aborts
    with 403 and leaves the whole application state as it was, whatever
    the target.  For an anonymous visitor each of the five answers with the
    redirect to the login page after flashing the invitation to log in,
    and changes nothing else: the tables, the session, the log and the
    outbox are as they were. *)
Theorem admin_views_refuse_non_admin `{Collaborators} (w : World) (cu : User.t)
    (index : Z) (utcnow : datetime.t) (salt method : string) (form : PasswordForm) :
  User.user_type cu <> "Admin" ->
  (admin.admin_delete_user (Some cu) index w = (Raise (HTTPException 403), w) /\
   admin.admin_revoke_token (Some cu) utcnow index w = (Raise (HTTPException 403), w) /\
   admin.admin_confirm_email (Some cu) utcnow index w = (Raise (HTTPException 403), w) /\
   admin.admin_unconfirm_email (Some cu) index w = (Raise (HTTPException 403), w) /\
   admin.admin_change_password (Some cu) salt method form index w
     = (Raise (HTTPException 403), w)) /\
  (admin.admin_delete_user None index w
     = (Return (Redirect (url_for "admin.admin_login")),
        with_flashes (flashes w ++ [("Please log in to access this page.", "message")]) w) /\
   admin.admin_revoke_token None utcnow index w
     = (Return (Redirect (url_for "admin.admin_login")),
        with_flashes (flashes w ++ [("Please log in to access this page.", "message")]) w) /\
   admin.admin_confirm_email None utcnow index w
     = (Return (Redirect (url_for "admin.admin_login")),
        with_flashes (flashes w ++ [("Please log in to access this page.", "message")]) w) /\
   admin.admin_unconfirm_email None index w
     = (Return (Redirect (url_for "admin.admin_login")),
        with_flashes (flashes w ++ [("Please log in to access this page.", "message")]) w) /\
   admin.admin_change_password None salt method form index w
     = (Return (Redirect (url_for "admin.admin_login")),
        with_flashes (flashes w ++ [("Please log in to access this page.", "message")]) w)).
Proof.
  intros Hother.
  unfold admin.admin_delete_user, admin.admin_revoke_token, admin.admin_confirm_email,
    admin.admin_unconfirm_email, admin.admin_change_password.
  rewrite !admin_decorators_refuse by exact Hother.
  rewrite !admin_decorators_anonymous.
  repeat split.
Qed.

Lemma admin_views_refuse_non_admin_witness :
  admin.admin_delete_user (Some (example_user 2 "patkennedy79@gmail.com" "User")) 1
    example_world
  = (Raise (HTTPException 403), example_world) /\
  admin.admin_change_password (Some (example_user 2 "patkennedy79@gmail.com" "User"))
    "s2" "POST" {| validate_on_submit := true; password_data := "Mine123" |} 1
    example_world
  = (Raise (HTTPException 403), example_world) /\
  fst (admin.admin_revoke_token None 100 1 example_world)
    = Return (Redirect (url_for "admin.admin_login")) /\
  users (snd (admin.admin_revoke_token None 100 1 example_world)) = users example_world.
Proof.
  destruct (admin_views_refuse_non_admin example_world
              (example_user 2 "patkennedy79@gmail.com" "User") 1 100 "s2" "POST"
              {| validate_on_submit := true; password_data := "Mine123" |})
    as [(Hdelete & _ & _ & _ & Hpassword) (_ & Hrevoke & _)]; [discriminate |].
  split; [exact Hdelete |]. split; [exact Hpassword |].
  rewrite Hrevoke. split; reflexivity.
Defined.

(** The query by primary key of the console, as a computation. *)
Lemma first_or_404_found (w : World) (index : Z) (u : User.t) :
  head (filter (fun r => User.id r = Some index) (users w)) = Some u ->
  database.User_query_filter_by_id_first_or_404 index w = (Return u, w).
Proof.
  intros Hfind. unfold database.User_query_filter_by_id_first_or_404.
  run_monad. rewrite Hfind. reflexivity.
Qed.

Lemma first_or_404_missing (w : World) (index : Z) :
  Some index ∉ User.id <$> users w ->
  database.User_query_filter_by_id_first_or_404 index w = (Raise (HTTPException 404), w).
Proof.
  intros Hmissing. unfold database.User_query_filter_by_id_first_or_404.
  run_monad.
  rewrite (head_filter_none (fun r => User.id r = Some index)); [reflexivity |].
  intros r Hr Hid. apply Hmissing. rewrite <- Hid. apply list_elem_of_fmap_2. exact Hr.
Qed.

(** X15. Asked by an administrator for an id that no user has, the five
    views that act on a user abort with 404 and leave the application
    state as it was: nothing is deleted, written or flashed.  The id is
    one that the URL converter yields and that SQLite can store: from 0 to
    2^63 - 1. *)
Theorem admin_views_unknown_user `{Collaborators} (w : World) (cu : User.t)
    (index : Z) (utcnow : datetime.t) (salt method : string) (form : PasswordForm) :
  User.user_type cu = "Admin" ->
  0 <= index < 2 ^ 63 ->
  Some index ∉ User.id <$> users w ->
  admin.admin_delete_user (Some cu) index w = (Raise (HTTPException 404), w) /\
  admin.admin_revoke_token (Some cu) utcnow index w = (Raise (HTTPException 404), w) /\
  admin.admin_confirm_email (Some cu) utcnow index w = (Raise (HTTPException 404), w) /\
  admin.admin_unconfirm_email (Some cu) index w = (Raise (HTTPException 404), w) /\
  admin.admin_change_password (Some cu) salt method form index w
    = (Raise (HTTPException 404), w).
Proof.
  intros Hcu _ Hmissing.
  unfold admin.admin_delete_user, admin.admin_revoke_token, admin.admin_confirm_email,
    admin.admin_unconfirm_email, admin.admin_change_password.
  rewrite !admin_decorators_pass by exact Hcu.
  unfold admin.admin_delete_user_body, admin.admin_revoke_token_body,
    admin.admin_confirm_email_body, admin.admin_unconfirm_email_body,
    admin.admin_change_password_body.
  rewrite !run_bind, !(first_or_404_missing w index Hmissing).
  repeat split.
Qed.

Lemma admin_views_unknown_user_witness :
  (Some 9 ∉ User.id <$> users example_world) /\
  admin.admin_delete_user (Some (example_user 3 "admin@example.com" "Admin")) 9
    example_world
  = (Raise (HTTPException 404), example_world) /\
  admin.admin_confirm_email (Some (example_user 3 "admin@example.com" "Admin")) 100 9
    example_world
  = (Raise (HTTPException 404), example_world).
Proof.
  assert (Hmissing : Some 9 ∉ User.id <$> users example_world).
  { cbn. intros Hin. repeat (apply elem_of_cons in Hin as [Heq | Hin]; [discriminate |]).
    inversion Hin. }
  assert (Hrange : 0 <= 9 < 2 ^ 63) by lia.
  destruct (admin_views_unknown_user example_world
              (example_user 3 "admin@example.com" "Admin") 9 100 "s2" "GET"
              {| validate_on_submit := false; password_data := EmptyString |}
              eq_refl Hrange Hmissing) as (Hdelete & _ & Hconfirm & _).
  split; [exact Hmissing |]. split; [exact Hdelete | exact Hconfirm].
Defined.

Lemma admin_revoke_token_revokes_token_witness :
  User.verify_auth_token (users example_world_with_token) 2000 example_token
    = Return (Some example_user_with_token) /\
  exists w',
    admin.admin_revoke_token (Some (example_user 3 "admin@example.com" "Admin")) 3000 1
      example_world_with_token
      = (Return (Redirect (url_for "admin.admin_list_users")), w') /\
    User.verify_auth_token (users w') 3000 example_token = Return None.
Proof.
  assert (Hvalid : User.verify_auth_token (users example_world_with_token) 2000
                     example_token = Return (Some example_user_with_token))
    by reflexivity.
  assert (Hfind : head (filter (fun r => User.id r = Some 1)
                          (users example_world_with_token))
                  = Some example_user_with_token) by reflexivity.
  destruct (admin_revoke_token_revokes_token example_world_with_token
              (example_user 3 "admin@example.com" "Admin") example_user_with_token 1
              example_token 2000 3000 eq_refl eq_refl Hfind Hvalid)
    as (w' & Hrun & Hrejected).
  split; [exact Hvalid |].
  exists w'. split; [exact Hrun |]. apply Hrejected. lia.
Defined.

(** ** project/admin/routes.py: email confirmation by the administrator *)

Lemma update_row_twice (u1 u2 : User.t) (l : list User.t) :
  User.id u1 = User.id u2 ->
  database.update_row u2 <$> (database.update_row u1 <$> l)
  = database.update_row u2 <$> l.
Proof.
  intros Hid. rewrite <- list_fmap_compose. apply list_fmap_ext.
  intros _ r _. cbn. unfold database.update_row.
  repeat case_bool_decide; congruence.
Qed.

(** Writing a row back unchanged leaves a table with distinct keys as it
    is. *)
Lemma update_row_id (u : User.t) (l : list User.t) :
  NoDup (User.id <$> l) -> u ∈ l -> database.update_row u <$> l = l.
Proof.
  intros Hnd Hin. apply fmap_id_in. intros r Hr.
  unfold database.update_row. case_bool_decide as Hid; [| reflexivity].
  symmetry. apply (NoDup_fmap_inj_in User.id l); assumption.
Qed.

(** X16. [admin_confirm_email] marks the user found by id confirmed, at
    the time of the request; [admin_unconfirm_email] after it clears the
    flag and the date again.  For a user who was unconfirmed, in a table
    with distinct primary keys, the two together give back the table of
    users they started from. *)
Theorem admin_confirm_then_unconfirm (w : World) (cu u : User.t) (index : Z)
    (utcnow : datetime.t) :
  session w = [] ->
  User.user_type cu = "Admin" ->
  head (filter (fun r => User.id r = Some index) (users w)) = Some u ->
  exists w1 w2,
    admin.admin_confirm_email (Some cu) utcnow index w
      = (Return (Redirect (url_for "admin.admin_list_users")), w1) /\
    head (filter (fun r => User.id r = Some index) (users w1))
      = Some (User.confirm_email_address utcnow u) /\
    User.email_confirmed (User.confirm_email_address utcnow u) = true /\
    User.email_confirmed_on (User.confirm_email_address utcnow u) = Some utcnow /\
    admin.admin_unconfirm_email (Some cu) index w1
      = (Return (Redirect (url_for "admin.admin_list_users")), w2) /\
    head (filter (fun r => User.id r = Some index) (users w2))
      = Some (User.revoke_email_address_confirmation u) /\
    entries w2 = entries w /\
    (User.email_confirmed u = false -> User.email_confirmed_on u = None ->
     NoDup (User.id <$> users w) ->
     users w2 = users w).
Proof.
  intros Hs Hcu Hfind.
  destruct (head_filter_Some (fun r => User.id r = Some index) _ _ Hfind) as [Hin Hid].
  set (u1 := User.confirm_email_address utcnow u).
  set (u2 := User.revoke_email_address_confirmation u).
  assert (Hfind1 : head (filter (fun r => User.id r = Some index)
                           (database.update_row u1 <$> users w)) = Some u1)
    by (apply (first_after_update _ _ u); [exact Hfind | reflexivity | exact Hid]).
  assert (Hfind2 : head (filter (fun r => User.id r = Some index)
                           (database.update_row u2 <$> users w)) = Some u2)
    by (apply (first_after_update _ _ u); [exact Hfind | reflexivity | exact Hid]).
  eexists _, _. split.
  { unfold admin.admin_confirm_email. rewrite admin_decorators_pass by exact Hcu.
    unfold admin.admin_confirm_email_body, flash.
    rewrite run_bind, (first_or_404_found w index u Hfind). cbn beta iota zeta.
    fold u1.
    rewrite run_bind, session_add_persistent by (exists index; exact Hid).
    cbn beta iota.
    rewrite run_bind, session_commit_update by exact Hs. cbn beta iota.
    reflexivity. }
  cbn [users entries with_flashes with_tables].
  split; [exact Hfind1 |]. split; [reflexivity |]. split; [reflexivity |].
  split.
  { unfold admin.admin_unconfirm_email. rewrite admin_decorators_pass by exact Hcu.
    unfold admin.admin_unconfirm_email_body, flash.
    rewrite run_bind. erewrite first_or_404_found by exact Hfind1.
    cbn beta iota zeta.
    change (User.revoke_email_address_confirmation u1) with u2.
    rewrite run_bind, session_add_persistent by (exists index; exact Hid).
    cbn beta iota.
    rewrite run_bind. cbn [session with_flashes with_tables].
    unfold database.session_commit. cbn [session with_session]. rewrite Hs.
    cbn. reflexivity. }
  cbn [users entries with_flashes with_tables with_session].
  rewrite update_row_twice by reflexivity.
  split; [exact Hfind2 |]. split; [reflexivity |].
  intros Hunconfirmed Hnodate Hnd.
  assert (u2 = u) as ->.
  { destruct u. cbn in Hunconfirmed, Hnodate. subst. reflexivity. }
  apply update_row_id; assumption.
Qed.

Lemma admin_confirm_then_unconfirm_witness :
  exists w1 w2,
    admin.admin_confirm_email (Some (example_user 3 "admin@example.com" "Admin")) 500 2
      example_world
      = (Return (Redirect (url_for "admin.admin_list_users")), w1) /\
    admin.admin_unconfirm_email (Some (example_user 3 "admin@example.com" "Admin")) 2 w1
      = (Return (Redirect (url_for "admin.admin_list_users")), w2) /\
    users w2 = users example_world.
Proof.
  assert (Hfind : head (filter (fun r => User.id r = Some 2) (users example_world))
                  = Some (example_user 2 "patkennedy79@gmail.com" "User"))
    by reflexivity.
  assert (Hids : NoDup (User.id <$> users example_world)) by solve_concrete_NoDup.
  destruct (admin_confirm_then_unconfirm example_world
              (example_user 3 "admin@example.com" "Admin")
              (example_user 2 "patkennedy79@gmail.com" "User") 2 500
              eq_refl eq_refl Hfind)
    as (w1 & w2 & Hconfirm & _ & _ & _ & Hunconfirm & _ & _ & Hback).
  exists w1, w2. split; [exact Hconfirm |]. split; [exact Hunconfirm |].
  apply Hback; [reflexivity | reflexivity | exact Hids].
Defined.

(** ** project/admin/routes.py: password set by the administrator *)

(** X17. [admin_change_password], on a POST with a valid form, stores the
    hash of the submitted password on the row of the user found by id.
    Unlike [change_password] of the users API it leaves the bearer token
    alone: a token accepted before is accepted after.  On any other
    request it renders the form and writes nothing. *)
Theorem admin_change_password_keeps_token `{Collaborators} (w : World) (cu u : User.t)
    (index : Z) (salt method : string) (form : PasswordForm) :
  session w = [] ->
  User.user_type cu = "Admin" ->
  head (filter (fun r => User.id r = Some index) (users w)) = Some u ->
  (method = "POST" -> validate_on_submit form = true ->
     exists w',
       admin.admin_change_password (Some cu) salt method form index w
         = (Return (Redirect (url_for "admin.admin_list_users")), w') /\
       users w'
         = database.update_row (User.set_password salt u (password_data form)) <$> users w /\
       User.password_hashed (User.set_password salt u (password_data form))
         = generate_password_hash (password_data form) salt /\
       forall t tok,
         User.verify_auth_token (users w) t tok = Return (Some u) ->
         User.verify_auth_token (users w') t tok
         = Return (Some (User.set_password salt u (password_data form)))) /\
  (method <> "POST" \/ validate_on_submit form = false ->
     admin.admin_change_password (Some cu) salt method form index w
     = (Return (Page (render_template "admin/change_password.html"
                        [("form", CForm form)])), w)).
Proof.
  intros Hs Hcu Hfind.
  destruct (head_filter_Some (fun r => User.id r = Some index) _ _ Hfind) as [_ Hid].
  unfold admin.admin_change_password. rewrite admin_decorators_pass by exact Hcu.
  unfold admin.admin_change_password_body, flash.
  rewrite run_bind, (first_or_404_found w index u Hfind). cbn beta iota.
  split.
  - intros -> Hvalid. rewrite Hvalid.
    rewrite bool_decide_eq_true_2 by reflexivity. cbn [andb]. cbn beta iota zeta.
    set (u' := User.set_password salt u (password_data form)).
    eexists. split.
    { rewrite run_bind, session_add_persistent by (exists index; exact Hid).
      cbn beta iota.
      rewrite run_bind, session_commit_update by exact Hs. cbn beta iota.
      reflexivity. }
    cbn [users with_flashes with_tables].
    split; [reflexivity |]. split; [reflexivity |].
    intros t tok Hv.
    apply verify_auth_token_Some in Hv as (Hhead & Htok & expiration & Hexp & Hlt).
    rewrite (verify_auth_token_found _ u' tok expiration t).
    + destruct (Z.ltb_spec t expiration); [reflexivity | lia].
    + apply (first_by_token_after_change _ u); [exact Hhead | reflexivity | exact Htok].
    + exact Hexp.
  - intros [Hget | Hinvalid].
    + rewrite bool_decide_eq_false_2 by exact Hget. reflexivity.
    + rewrite Hinvalid, andb_false_r. reflexivity.
Qed.

Lemma admin_change_password_keeps_token_witness :
  User.verify_auth_token (users example_world_with_token) 2000 example_token
    = Return (Some example_user_with_token) /\
  (exists w',
     admin.admin_change_password (Some (example_user 3 "admin@example.com" "Admin"))
       "s2" "POST" {| validate_on_submit := true; password_data := "Reset123" |} 1
       example_world_with_token
       = (Return (Redirect (url_for "admin.admin_list_users")), w') /\
     User.verify_auth_token (users w') 2000 example_token
       = Return (Some (User.set_password "s2" example_user_with_token "Reset123"))) /\
  admin.admin_change_password (Some (example_user 3 "admin@example.com" "Admin"))
    "s2" "GET" {| validate_on_submit := false; password_data := EmptyString |} 1
    example_world_with_token
  = (Return (Page (render_template "admin/change_password.html"
                     [("form", CForm {| validate_on_submit := false;
                                        password_data := EmptyString |})])),
     example_world_with_token).
Proof.
  assert (Hvalid : User.verify_auth_token (users example_world_with_token) 2000
                     example_token = Return (Some example_user_with_token))
    by reflexivity.
  assert (Hfind : head (filter (fun r => User.id r = Some 1)
                          (users example_world_with_token))
                  = Some example_user_with_token) by reflexivity.
  split; [exact Hvalid |]. split.
  - destruct (admin_change_password_keeps_token example_world_with_token
                (example_user 3 "admin@example.com" "Admin") example_user_with_token 1
                "s2" "POST" {| validate_on_submit := true; password_data := "Reset123" |}
                eq_refl eq_refl Hfind) as [Hpost _].
    destruct (Hpost eq_refl eq_refl) as (w' & Hrun & _ & _ & Hkept).
    exists w'. split; [exact Hrun |]. apply Hkept. exact Hvalid.
  - apply (admin_change_password_keeps_token example_world_with_token
             (example_user 3 "admin@example.com" "Admin") example_user_with_token 1
             "s2" "GET" {| validate_on_submit := false; password_data := EmptyString |}
             eq_refl eq_refl Hfind).
    left. discriminate.
Defined.

(** ** project/admin/routes.py: login to the console *)

(** X18. [admin_login] logs in an administrator who gave the right
    password, and nobody else.  A POST with a valid form, for which the
    row found for the email of the form has the password of the form and
    type "Admin", calls [login_user] on that row with the "remember me" of
    the form, logs the login and redirects to the list of users, flashing
    nothing.  Every other POST (form not valid, no user with that email,
    wrong password, user who is not an administrator) renders the login
    page after flashing one and the same error.  A GET renders the login
    page and changes nothing.  So whenever [login_user] is called the
    conditions of the first case hold; and no request writes to the
    tables. *)
Theorem admin_login_only_admins `{Collaborators} (method : string) (form : LoginForm.t)
    (w : World) :
  (forall user,
     method = "POST" ->
     LoginForm.validate_on_submit form = true ->
     head (filter (fun r => User.email r = LoginForm.email_data form) (users w))
       = Some user ->
     User.is_password_correct user (LoginForm.password_data form) = true ->
     User.user_type user = "Admin" ->
     admin.admin_login method form w
     = (Return (LoggedIn user (LoginForm.remember_me_data form)
                  (url_for "admin.admin_list_users")),
        with_log (log w ++ ["Logged in user: " +:+ User.email user]) w)) /\
  (method = "POST" ->
   LoginForm.validate_on_submit form = false \/
   head (filter (fun r => User.email r = LoginForm.email_data form) (users w)) = None \/
   (exists user,
      head (filter (fun r => User.email r = LoginForm.email_data form) (users w))
        = Some user /\
      (User.is_password_correct user (LoginForm.password_data form) = false \/
       User.user_type user <> "Admin")) ->
   admin.admin_login method form w
   = (Return (LoginPage "admin/login.html" form),
      with_flashes (flashes w ++ [("ERROR! Incorrect login credentials.", "error")]) w)) /\
  (method <> "POST" ->
   admin.admin_login method form w = (Return (LoginPage "admin/login.html" form), w)) /\
  (forall user remember target,
     fst (admin.admin_login method form w) = Return (LoggedIn user remember target) ->
     method = "POST" /\
     LoginForm.validate_on_submit form = true /\
     head (filter (fun r => User.email r = LoginForm.email_data form) (users w))
       = Some user /\
     User.is_password_correct user (LoginForm.password_data form) = true /\
     User.user_type user = "Admin" /\
     remember = LoginForm.remember_me_data form) /\
  users (snd (admin.admin_login method form w)) = users w /\
  entries (snd (admin.admin_login method form w)) = entries w.
Proof.
  unfold admin.admin_login, database.User_query_filter_by_email, flash, logger_info.
  run_monad.
  split; [| split; [| split]].
  - intros user -> Hvalid Hfind Hpw Htype.
    rewrite bool_decide_eq_true_2 by reflexivity. rewrite Hvalid. cbn beta iota.
    rewrite Hfind, Hpw. rewrite bool_decide_eq_true_2 by exact Htype. reflexivity.
  - intros -> Hwrong.
    rewrite bool_decide_eq_true_2 by reflexivity.
    destruct Hwrong as [Hinvalid | [Hnone | (user & Hfind & [Hpw | Htype])]].
    + rewrite Hinvalid. reflexivity.
    + destruct (LoginForm.validate_on_submit form); [| reflexivity].
      cbn beta iota. rewrite Hnone. reflexivity.
    + destruct (LoginForm.validate_on_submit form); [| reflexivity].
      cbn beta iota. rewrite Hfind, Hpw. reflexivity.
    + destruct (LoginForm.validate_on_submit form); [| reflexivity].
      cbn beta iota. rewrite Hfind.
      rewrite (bool_decide_eq_false_2 _ Htype), andb_false_r. reflexivity.
  - intros Hget. rewrite bool_decide_eq_false_2 by exact Hget. reflexivity.
  - destruct (bool_decide (method = "POST")) eqn:Hmethod; cbn beta iota;
      [| cbn; split; [intros ? ? ? Hin; discriminate Hin | split; reflexivity]].
    destruct (LoginForm.validate_on_submit form) eqn:Hvalid; cbn beta iota;
      [| cbn; split; [intros ? ? ? Hin; discriminate Hin | split; reflexivity]].
    destruct (head (filter _ (users w))) as [user |] eqn:Hfind; cbn beta iota;
      [| cbn; split; [intros ? ? ? Hin; discriminate Hin | split; reflexivity]].
    destruct (User.is_password_correct user (LoginForm.password_data form)) eqn:Hpw;
      cbn [andb];
      [| cbn; split; [intros ? ? ? Hin; discriminate Hin | split; reflexivity]].
    destruct (bool_decide (User.user_type user = "Admin")) eqn:Htype; cbn beta iota;
      [| cbn; split; [intros ? ? ? Hin; discriminate Hin | split; reflexivity]].
    apply bool_decide_eq_true_1 in Htype. apply bool_decide_eq_true_1 in Hmethod.
    cbn. split; [| split; reflexivity].
    intros user' remember target [= <- <- _]. repeat split; assumption.
Qed.

Lemma admin_login_only_admins_witness :
  admin.admin_login "POST"
    {| LoginForm.validate_on_submit := true;
       LoginForm.email_data := "admin@example.com";
       LoginForm.password_data := "password";
       LoginForm.remember_me_data := true |} example_world
  = (Return (LoggedIn (example_user 3 "admin@example.com" "Admin") true
               (url_for "admin.admin_list_users")),
     with_log ["Logged in user: admin@example.com"] example_world) /\
  admin.admin_login "POST"
    {| LoginForm.validate_on_submit := true;
       LoginForm.email_data := "pkennedy@hey.com";
       LoginForm.password_data := "password";
       LoginForm.remember_me_data := true |} example_world
  = (Return (LoginPage "admin/login.html"
               {| LoginForm.validate_on_submit := true;
                  LoginForm.email_data := "pkennedy@hey.com";
                  LoginForm.password_data := "password";
                  LoginForm.remember_me_data := true |}),
     with_flashes [("ERROR! Incorrect login credentials.", "error")] example_world).
Proof.
  split.
  - apply (admin_login_only_admins "POST"
             {| LoginForm.validate_on_submit := true;
                LoginForm.email_data := "admin@example.com";
                LoginForm.password_data := "password";
                LoginForm.remember_me_data := true |} example_world);
      reflexivity.
  - apply (admin_login_only_admins "POST"
             {| LoginForm.validate_on_submit := true;
                LoginForm.email_data := "pkennedy@hey.com";
                LoginForm.password_data := "password";
                LoginForm.remember_me_data := true |} example_world);
      [reflexivity |].
    right. right. exists (example_user 1 "pkennedy@hey.com" "User").
    split; [reflexivity |]. right. discriminate.
Defined.

(** ** project/admin/routes.py: the list of users *)

Lemma id_le_total : Total admin.id_le.
Proof.
  intros a b. unfold admin.id_le.
  destruct (User.id a), (User.id b); cbn; auto. lia.
Qed.

Lemma entries_of_cons (e : Entry.t) (es : list Entry.t) (u : User.t) :
  entries_of (e :: es) u
  = (if decide (Entry.user_id e = User.id u) then 1 else 0) + entries_of es u.
Proof.
  unfold entries_of, len. rewrite filter_cons.
  destruct (decide (Entry.user_id e = User.id u)); cbn [length]; lia.
Qed.

Lemma sum_entries_of_perm (es : list Entry.t) (us us' : list User.t) :
  us ≡ₚ us' ->
  foldr (fun u acc => entries_of es u + acc) 0 us
  = foldr (fun u acc => entries_of es u + acc) 0 us'.
Proof. intros Hp. induction Hp; cbn; lia. Qed.

(** A new entry adds one to the count of its owner and to no other. *)
Lemma sum_entries_of_cons (e : Entry.t) (es : list Entry.t) (us : list User.t) :
  NoDup (User.id <$> us) ->
  foldr (fun u acc => entries_of (e :: es) u + acc) 0 us
  = (if decide (Entry.user_id e ∈ User.id <$> us) then 1 else 0)
    + foldr (fun u acc => entries_of es u + acc) 0 us.
Proof.
  induction us as [| u us IH]; intros Hnd; [reflexivity |].
  rewrite fmap_cons in Hnd. apply NoDup_cons in Hnd as [Hu Hnd].
  cbn [foldr]. rewrite IH by exact Hnd. rewrite entries_of_cons, fmap_cons.
  destruct (decide (Entry.user_id e = User.id u)) as [Heq | Hne];
    destruct (decide (Entry.user_id e ∈ User.id <$> us)) as [Hin | Hout];
    destruct (decide (Entry.user_id e ∈ User.id u :: (User.id <$> us)))
      as [Hin' | Hout'];
    try lia; exfalso.
  - apply Hu. rewrite <- Heq. exact Hin.
  - apply Hu. rewrite <- Heq. exact Hin.
  - apply Hout'. rewrite Heq. left.
  - apply Hout'. right. exact Hin.
  - apply elem_of_cons in Hin' as [Heq | Hin]; contradiction.
Qed.

Lemma sum_entries_of_all (es : list Entry.t) (us : list User.t) :
  NoDup (User.id <$> us) ->
  (forall e, e ∈ es -> Entry.user_id e ∈ User.id <$> us) ->
  foldr (fun u acc => entries_of es u + acc) 0 us = len es.
Proof.
  intros Hnd. induction es as [| e es IH]; intros Howned.
  - clear Hnd Howned. induction us as [| u us IHus]; [reflexivity |].
    cbn [foldr]. rewrite IHus. reflexivity.
  - rewrite sum_entries_of_cons by exact Hnd.
    rewrite decide_True by (apply Howned; left).
    rewrite IH by (intros e' He'; apply Howned; right; exact He').
    unfold len. cbn [length]. lia.
Qed.

(** The decorators of the list of users are those of the other views. *)
Lemma decorators_for_response (current_user : option User.t) (func : view response) :
  admin.login_required_for Redirect current_user func
    = admin.login_required current_user func /\
  admin.admin_required_for current_user func = admin.admin_required current_user func.
Proof. split; reflexivity. Qed.

(** X19. Asked by an administrator, the list of users of the console shows
    every user of the table exactly once, in ascending order of id, each
    with the number of entries whose [user_id] is its id, and the view
    writes nothing.  When the primary keys are distinct and every entry
    references a user of the table, these numbers add up to the number of
    entries: no entry is counted twice or left out.  A logged-in user who
    is not an administrator gets 403 and no list, an anonymous visitor the
    redirect to the login page. *)
Theorem admin_list_users_counts (w : World) (cu : User.t) :
  (User.user_type cu = "Admin" ->
   exists listing,
     admin.admin_list_users (Some cu) w
       = (Return (ListingPage "admin/users.html" listing), w) /\
     listing.*1 ≡ₚ users w /\
     Sorted admin.id_le (listing.*1) /\
     (forall u n, (u, n) ∈ listing ->
        n = len (filter (fun e => Entry.user_id e = User.id u) (entries w))) /\
     (NoDup (User.id <$> users w) ->
      (forall e, e ∈ entries w -> Entry.user_id e ∈ User.id <$> users w) ->
      foldr (fun p acc => p.2 + acc) 0 listing = len (entries w))) /\
  (User.user_type cu <> "Admin" ->
   admin.admin_list_users (Some cu) w = (Raise (HTTPException 403), w)) /\
  admin.admin_list_users None w
  = (Return (ListingRedirect (url_for "admin.admin_login")),
     with_flashes (flashes w ++ [("Please log in to access this page.", "message")]) w).
Proof.
  split; [| split; [| reflexivity]].
  2:{ intros Hother.
      unfold admin.admin_list_users, admin.login_required_for,
        admin.admin_required_for, getattr_of.
      run_monad. rewrite bool_decide_eq_true_2 by exact Hother. reflexivity. }
  intros Hadmin.
  assert (Hrun : admin.admin_list_users (Some cu) w = admin.admin_list_users_body w).
  { unfold admin.admin_list_users, admin.login_required_for,
      admin.admin_required_for, getattr_of.
    run_monad. rewrite bool_decide_eq_false_2 by (intros Hne; apply Hne, Hadmin).
    reflexivity. }
  rewrite Hrun.
  eexists. split; [reflexivity |].
  assert (Hfst : forall (l : list User.t),
    ((fun user => (user, entries_of (entries w) user)) <$> l).*1 = l).
  { intros l. rewrite <- list_fmap_compose. apply fmap_id_in. reflexivity. }
  change (fun user : User.t =>
            (user, len (filter (fun e => Entry.user_id e = User.id user) (entries w))))
    with (fun user : User.t => (user, entries_of (entries w) user)).
  rewrite Hfst.
  split; [apply merge_sort_Permutation |].
  split; [apply (Sorted_merge_sort _ (Total0 := id_le_total)) |].
  split.
  - intros u n Hin. apply list_elem_of_fmap in Hin as (u' & [= -> ->] & _).
    reflexivity.
  - intros Hnd Howned.
    rewrite <- (sum_entries_of_all (entries w) (users w) Hnd Howned).
    rewrite <- (sum_entries_of_perm (entries w) _ _
                  (merge_sort_Permutation admin.id_le (users w))).
    induction (merge_sort admin.id_le (users w)) as [| u l IH]; [reflexivity |].
    cbn. rewrite IH. reflexivity.
Qed.

Lemma admin_list_users_counts_witness :
  admin.admin_list_users (Some (example_user 3 "admin@example.com" "Admin")) example_world
  = (Return (ListingPage "admin/users.html"
               [(example_user 1 "pkennedy@hey.com" "User", 2);
                (example_user 2 "patkennedy79@gmail.com" "User", 1);
                (example_user 3 "admin@example.com" "Admin", 0)]),
     example_world) /\
  admin.admin_list_users (Some (example_user 2 "patkennedy79@gmail.com" "User"))
    example_world
  = (Raise (HTTPException 403), example_world).
Proof.
  split.
  - destruct (admin_list_users_counts example_world
                (example_user 3 "admin@example.com" "Admin")) as [Hadmin _].
    destruct (Hadmin eq_refl) as (listing & Hrun & _).
    rewrite Hrun. vm_compute in Hrun. injection Hrun as <-. reflexivity.
  - apply (admin_list_users_counts example_world
             (example_user 2 "patkennedy79@gmail.com" "User")).
    discriminate.
Defined.

(** ** project/admin/routes.py: the command that creates an administrator *)

(** X20. [create_admin_user] with an email that no user has inserts one
    row of type "Admin", unconfirmed and without token, under a primary
    key not in use, and echoes the confirmation line.  With an email
    already in the table the [IntegrityError] of the commit is not caught:
    it leaves the command, no line is echoed, and both tables are
    unchanged. *)
Theorem create_admin_user_outcomes `{Collaborators} (w : World)
    (utcnow1 utcnow2 : datetime.t) (salt email password : string) :
  session w = [] ->
  (email ∉ User.email <$> users w ->
     exists admin_user w',
       admin.create utcnow1 utcnow2 salt email password w
         = (Return ("Created new admin user (" +:+ email +:+ ")!"), w') /\
       users w' = users w ++ [admin_user] /\
       entries w' = entries w /\
       session w' = [] /\
       User.email admin_user = email /\
       User.user_type admin_user = "Admin" /\
       User.is_admin admin_user = true /\
       (User.id admin_user ∉ User.id <$> users w) /\
       User.email_confirmed admin_user = false /\
       User.auth_token admin_user = None) /\
  (email ∈ User.email <$> users w ->
     fst (admin.create utcnow1 utcnow2 salt email password w) = Raise IntegrityError /\
     users (snd (admin.create utcnow1 utcnow2 salt email password w)) = users w /\
     entries (snd (admin.create utcnow1 utcnow2 salt email password w)) = entries w).
Proof.
  intros Hs. split; intros Hemail.
  - eexists _, _. split.
    { unfold admin.create, database.session_add, database.session_commit.
      run_monad. rewrite Hs. cbn.
      rewrite bool_decide_eq_false_2 by exact Hemail. cbn. reflexivity. }
    cbn. repeat (split; [reflexivity |]).
    split; [apply next_id_fresh |]. split; reflexivity.
  - unfold admin.create, database.session_add, database.session_commit.
    run_monad. rewrite Hs. cbn.
    rewrite bool_decide_eq_true_2 by exact Hemail. repeat split.
Qed.

Lemma create_admin_user_outcomes_witness :
  (exists admin_user w',
     admin.create 10 11 "s1" "root@example.com" "TopSecret1" example_world
       = (Return "Created new admin user (root@example.com)!", w') /\
     users w' = users example_world ++ [admin_user] /\
     User.user_type admin_user = "Admin") /\
  fst (admin.create 10 11 "s1" "admin@example.com" "TopSecret1" example_world)
    = Raise IntegrityError /\
  users (snd (admin.create 10 11 "s1" "admin@example.com" "TopSecret1" example_world))
    = users example_world.
Proof.
  destruct (create_admin_user_outcomes example_world 10 11 "s1" "root@example.com"
              "TopSecret1" eq_refl) as [Hfresh _].
  destruct (create_admin_user_outcomes example_world 10 11 "s1" "admin@example.com"
              "TopSecret1" eq_refl) as [_ Hdup].
  split.
  - destruct Hfresh as (admin_user & w' & Hrun & Husers & _ & _ & _ & Htype & _).
    { cbn. intros Hin.
      repeat (apply elem_of_cons in Hin as [Heq | Hin]; [discriminate |]).
      inversion Hin. }
    exists admin_user, w'. split; [exact Hrun |]. split; [exact Husers | exact Htype].
  - destruct Hdup as (Hraise & Husers & _); [cbn; right; right; left |].
    split; [exact Hraise | exact Husers].
Defined.

(** ** project/models.py and project/admin/routes.py: roles *)

(** X21. The role tests agree: [is_admin] holds exactly when "Admin" is
    among [get_roles], every user has the role "User", and
    [@admin_required] lets a logged-in user through exactly when
    [is_admin] holds; otherwise it aborts with 403 before the view runs. *)
Theorem roles_agree (u : User.t) (func : view response) (w : World) :
  (User.is_admin u = true <-> "Admin" ∈ User.get_roles u) /\
  "User" ∈ User.get_roles u /\
  admin.admin_required (Some u) func w
  = if User.is_admin u then func w else (Raise (HTTPException 403), w).
Proof.
  unfold User.is_admin, User.get_roles, admin.admin_required, getattr_of.
  run_monad.
  destruct (decide (User.user_type u = "Admin")) as [Hadmin | Hother].
  - rewrite !bool_decide_eq_true_2 by exact Hadmin.
    rewrite bool_decide_eq_false_2 by (intros Hne; apply Hne, Hadmin).
    split; [| split; [left | reflexivity]].
    split; [intros _; right; left | reflexivity].
  - rewrite !bool_decide_eq_false_2 by exact Hother.
    rewrite bool_decide_eq_true_2 by exact Hother.
    split; [| split; [left | reflexivity]].
    split; [discriminate |].
    intros Hin. apply list_elem_of_singleton in Hin. discriminate.
Qed.
